(** * Product creation workflow (src/lib/services/productService.ts)

    A shallow embedding of [optimizeImage], [createThumbnail] and
    [createProduct].  The browser (image decoding, canvas) and the hosted
    storage / record-store client are external collaborators: they appear as
    a [World] of oracles.  Every call made to them is recorded in a trace, so
    that statements such as "exactly one insert" or "no upload happens" can be
    read off a run. *)

From Stdlib Require Import ZArith List String Ascii Bool Lia QArith.
From Stdlib Require Import DecimalString.
Import ListNotations.

Open Scope string_scope.
Open Scope Z_scope.

(** ** JavaScript values that can be thrown

    The top-level handler of [createProduct] tests [error instanceof Error],
    so a thrown value is either an [Error] object with its message or some
    other value (a string, a plain object, ...), kept as its text. *)

Inductive JsValue : Type :=
| JsError (message : string)
| JsOther (payload : string).

Definition instanceofError (v : JsValue) : bool :=
  match v with
  | JsError _ => true
  | JsOther _ => false
  end.

(** How a promise settles. *)
Inductive Settled (A : Type) : Type :=
| Resolved (a : A)
| Rejected (reason : JsValue).
Arguments Resolved {A} a.
Arguments Rejected {A} reason.

(** How an evaluation completes: normally, or by a throw. *)
Inductive Completion (A : Type) : Type :=
| Return (a : A)
| Throw (v : JsValue).
Arguments Return {A} a.
Arguments Throw {A} v.

(** ** Data model *)

(** A [Blob] is its bytes; a [File] is a blob with a file name. *)
Definition Blob : Type := string.

Module File.
Record t : Type := { name : string; bytes : Blob }.
End File.

(** [ProductFormData] of src/lib/types/product.ts: [image] is optional. *)
Module ProductFormData.
Record t : Type := {
  name : string;
  marketplace : string;
  marketplace_product_id : string;
  giveaway : string;
  image : option File.t
}.
End ProductFormData.

(** The object handed to [supabase.from('products').insert]. *)
Module ProductRow.
Record t : Type := {
  name : string;
  marketplace : string;
  marketplace_product_id : string;
  giveaway : string;
  image_path : string;
  thumbnail_path : string;
  user_id : string
}.
End ProductRow.

(** The [{ data, error }] object the client resolves with: only [error] is
    read by the workflow, and of it only [error.message]. *)
Record ClientError : Type := { message : string }.
Record ClientResult : Type := { error : option ClientError }.

Definition ok : ClientResult := {| error := None |}.
Definition failed (m : string) : ClientResult :=
  {| error := Some {| message := m |} |}.

(** Options of [upload]. *)
Record UploadOptions : Type := {
  contentType : string;
  cacheControl : string;
  upsert : bool
}.

(** What [createProduct] returns: [{ success: true }]. *)
Record CreateResult : Type := { success : bool }.

(** ** Calls to the outside world *)

Inductive Event : Type :=
| EvLoadImage (src : Blob)
| EvToBlob (src : Blob) (width height : Z) (mime : string) (quality : Q)
| EvUpload (bucket key : string) (body : Blob) (opts : UploadOptions)
| EvGetPublicUrl (bucket key : string)
| EvInsert (table : string) (row : ProductRow.t)
| EvRemove (bucket : string) (keys : list string)
| EvConsoleError (label : string) (v : JsValue).

Definition Trace : Type := list Event.
Bind Scope list_scope with Trace.

(** Which of two concurrently pending promises settles first. *)
Inductive Side : Type := LeftFirst | RightFirst.

(** The environment of one invocation.  Each oracle answers by its
    arguments: within one invocation the backend is never asked twice about
    the same arguments (the two storage keys differ), and decoding or
    encoding a blob is taken to be a function of the blob.

    The promises of the client ([upload], [remove], [insert]) may resolve
    with a result that carries an [error], or reject.  [getPublicUrl] is
    synchronous and only builds a URL. *)
Record World : Type := {
  (** [Date.now()] *)
  now : N;
  (** [Math.random().toString(36).substr(2, 9)] *)
  randomToken : string;
  (** Loading a blob into an [Image]: [Some (width, height)] when [onload]
      fires, [None] when [onerror] fires. *)
  imageLoad : Blob -> option (Z * Z);
  (** Whether [canvas.getContext('2d')] is non-null for a canvas of the
      given size. *)
  getContext2d : Z -> Z -> bool;
  (** [drawImage] followed by [canvas.toBlob]: the encoded blob, or [None]
      when the callback receives [null]. *)
  canvasToBlob : Blob -> Z -> Z -> string -> Q -> option Blob;
  storageUpload : string -> Blob -> Settled ClientResult;
  storageGetPublicUrl : string -> string;
  storageRemove : list string -> Settled ClientResult;
  productsInsert : ProductRow.t -> Settled ClientResult;
  uploadRace : Side;
  removeRace : Side
}.

(** ** The effect monad: a trace of calls and a completion *)

Definition Async (A : Type) : Type := Trace * Completion A.

Definition ret {A} (a : A) : Async A := ([], Return a).
Definition throw {A} (v : JsValue) : Async A := ([], Throw v).
Definition emit (e : Event) : Async unit := ([e], Return tt).

Definition bind {A B} (m : Async A) (k : A -> Async B) : Async B :=
  match m with
  | (t, Return a) => let (t', r) := k a in ((t ++ t')%list, r)
  | (t, Throw v) => (t, Throw v)
  end.

Definition tryCatch {A} (body : Async A) (handler : JsValue -> Async A)
  : Async A :=
  match body with
  | (t, Throw v) => let (t', r) := handler v in ((t ++ t')%list, r)
  | done => done
  end.

Declare Scope async_scope.
Delimit Scope async_scope with async.
Notation "x <- m ;; k" := (bind m (fun x => k))
  (at level 61, m at next level, right associativity) : async_scope.
Notation "' p <- m ;; k" := (bind m (fun x => let p := x in k))
  (at level 61, p pattern, m at next level, right associativity)
  : async_scope.
Notation "m ;;; k" := (bind m (fun _ => k))
  (at level 61, right associativity) : async_scope.
Open Scope async_scope.

(** [await p] *)
Definition await {A} (p : Settled A) : Async A :=
  match p with
  | Resolved a => ret a
  | Rejected v => throw v
  end.

(** [Promise.all([p, q])] of two promises that are already dispatched: it
    fulfils with both values, and rejects with the reason of the promise
    that rejects first. *)
Definition promiseAll2 {A B} (race : Side) (p : Settled A) (q : Settled B)
  : Settled (A * B) :=
  match p, q with
  | Resolved a, Resolved b => Resolved (a, b)
  | Rejected v, Resolved _ => Rejected v
  | Resolved _, Rejected v => Rejected v
  | Rejected v, Rejected v' =>
      Rejected (match race with LeftFirst => v | RightFirst => v' end)
  end.

(** ** String helpers of the JavaScript source *)

(** [s.split(sep)] for a one-character separator: never empty. *)
Fixpoint split (sep : ascii) (s : string) : list string :=
  match s with
  | EmptyString => [EmptyString]
  | String c rest =>
      if Ascii.eqb c sep then EmptyString :: split sep rest
      else match split sep rest with
           | [] => [String c EmptyString]
           | seg :: segs => String c seg :: segs
           end
  end.

(** [a.pop()]: the last element, [undefined] on an empty array. *)
Fixpoint pop (a : list string) : option string :=
  match a with
  | [] => None
  | [x] => Some x
  | _ :: rest => pop rest
  end.

(** [v || d] on a string that may be [undefined]: [undefined] and the empty
    string are falsy. *)
Definition orElse (v : option string) (d : string) : string :=
  match v with
  | None => d
  | Some EmptyString => d
  | Some s => s
  end.

(** A number inside a template literal: its decimal digits. *)
Definition numberToString (n : N) : string :=
  NilZero.string_of_uint (N.to_uint n).

(** ** Image processing *)

(** [Math.round(n / d)] for integers [0 <= n] and [0 < d]: the nearest
    integer, halves upwards.  The source divides doubles; the quotients taken
    below are at most 200 and have a denominator that is an image size, so
    the double nearest to the exact quotient lies on the same side of every
    half-integer and the exact computation gives the same integer. *)
Definition roundDiv (n d : Z) : Z := (2 * n + d) / (2 * d).

Definition maxWidth : Z := 200.
Definition maxHeight : Z := 200.

(** The size computed in [createThumbnail] from [img.width], [img.height]. *)
Definition thumbnailSize (width height : Z) : Z * Z :=
  if width >? height
  then (maxWidth, roundDiv (height * maxWidth) width)
  else (roundDiv (width * maxHeight) height, maxHeight).

(** A canvas element is 300 by 150 until it is resized. *)
Definition defaultCanvasWidth : Z := 300.
Definition defaultCanvasHeight : Z := 150.

Section Workflow.

Variable W : World.

Definition optimizeImage (file : File.t) : Async Blob :=
  emit (EvLoadImage (File.bytes file)) ;;;
  match imageLoad W (File.bytes file) with
  | None => throw (JsError "Failed to load image")
  | Some (width, height) =>
      (* the context is requested before the canvas is resized *)
      if negb (getContext2d W defaultCanvasWidth defaultCanvasHeight)
      then throw (JsError "Failed to get canvas context")
      else
        emit (EvToBlob (File.bytes file) width height "image/jpeg" 0.8%Q) ;;;
        match canvasToBlob W (File.bytes file) width height "image/jpeg"
                           0.8%Q with
        | None => throw (JsError "Failed to create blob")
        | Some blob => ret blob
        end
  end.

Definition createThumbnail (file : Blob) : Async Blob :=
  emit (EvLoadImage file) ;;;
  match imageLoad W file with
  | None => throw (JsError "Failed to load image for thumbnail")
  | Some (imgWidth, imgHeight) =>
      let '(width, height) := thumbnailSize imgWidth imgHeight in
      if negb (getContext2d W width height)
      then throw (JsError "Failed to get canvas context")
      else
        emit (EvToBlob file width height "image/jpeg" 0.7%Q) ;;;
        match canvasToBlob W file width height "image/jpeg" 0.7%Q with
        | None => throw (JsError "Failed to create thumbnail")
        | Some blob => ret blob
        end
  end.

(** *** [createProduct] *)

Definition uploadOptions : UploadOptions :=
  {| contentType := "image/jpeg"; cacheControl := "3600"; upsert := false |}.

(** [supabase.storage.from(bucket).upload(key, body, opts)]: the call is
    made and its promise is handed back. *)
Definition upload (bucket key : string) (body : Blob) (opts : UploadOptions)
  : Async (Settled ClientResult) :=
  emit (EvUpload bucket key body opts) ;;; ret (storageUpload W key body).

Definition getPublicUrl (bucket key : string) : Async string :=
  emit (EvGetPublicUrl bucket key) ;;; ret (storageGetPublicUrl W key).

Definition insert (table : string) (row : ProductRow.t)
  : Async (Settled ClientResult) :=
  emit (EvInsert table row) ;;; ret (productsInsert W row).

Definition remove (bucket : string) (keys : list string)
  : Async (Settled ClientResult) :=
  emit (EvRemove bucket keys) ;;; ret (storageRemove W keys).

(** Lines 117-120: the extension and the two storage keys. *)
Definition fileExt (image : File.t) : string :=
  orElse (pop (split "." (File.name image))) "jpg".

Definition baseFilename : string :=
  numberToString (now W) ++ "_" ++ randomToken W.

Definition imagePathOf (userId : string) (image : File.t) : string :=
  userId ++ "/" ++ baseFilename ++ "." ++ fileExt image.

Definition thumbnailPathOf (userId : string) (image : File.t) : string :=
  userId ++ "/" ++ baseFilename ++ "_thumb." ++ fileExt image.

(** The body of the [try] block. *)
Definition createProductTry (data : ProductFormData.t) (userId : string)
  : Async CreateResult :=
  match ProductFormData.image data with
  | None => throw (JsError "Product image is required")
  | Some image =>
      optimizedImage <- optimizeImage image ;;
      thumbnail <- createThumbnail optimizedImage ;;
      let imagePath := imagePathOf userId image in
      let thumbnailPath := thumbnailPathOf userId image in
      imagePromise <- upload "products" imagePath optimizedImage
                             uploadOptions ;;
      thumbnailPromise <- upload "products" thumbnailPath thumbnail
                                 uploadOptions ;;
      ' (imageUpload, thumbnailUpload) <-
        await (promiseAll2 (uploadRace W) imagePromise thumbnailPromise) ;;
      match error imageUpload with
      | Some e => throw (JsError ("Failed to upload image: " ++ message e))
      | None =>
      match error thumbnailUpload with
      | Some e =>
          throw (JsError ("Failed to upload thumbnail: " ++ message e))
      | None =>
          imageUrl <- getPublicUrl "products" imagePath ;;
          thumbnailUrl <- getPublicUrl "products" thumbnailPath ;;
          insertPromise <-
            insert "products"
              {| ProductRow.name := ProductFormData.name data;
                 ProductRow.marketplace := ProductFormData.marketplace data;
                 ProductRow.marketplace_product_id :=
                   ProductFormData.marketplace_product_id data;
                 ProductRow.giveaway := ProductFormData.giveaway data;
                 ProductRow.image_path := imageUrl;
                 ProductRow.thumbnail_path := thumbnailUrl;
                 ProductRow.user_id := userId |} ;;
          insertResult <- await insertPromise ;;
          match error insertResult with
          | Some insertError =>
              removeImage <- remove "products" [imagePath] ;;
              removeThumbnail <- remove "products" [thumbnailPath] ;;
              await (promiseAll2 (removeRace W) removeImage
                                 removeThumbnail) ;;;
              throw (JsError ("Failed to create product: "
                              ++ message insertError))
          | None => ret {| success := true |}
          end
      end
      end
  end.

(** The [catch] clause: log, then re-throw an [Error]. *)
Definition createProductCatch (err : JsValue) : Async CreateResult :=
  emit (EvConsoleError "Error creating product:" err) ;;;
  throw (if instanceofError err then err
         else JsError "Failed to create product").

Definition createProduct (data : ProductFormData.t) (userId : string)
  : Async CreateResult :=
  tryCatch (createProductTry data userId) createProductCatch.

End Workflow.

(** ** Reading a run *)

Definition trace {A} (run : Async A) : Trace := fst run.
Definition outcome {A} (run : Async A) : Completion A := snd run.

Definition insertedRows (t : Trace) : list ProductRow.t :=
  flat_map (fun e => match e with EvInsert _ row => [row] | _ => [] end) t.

Definition removedKeys (t : Trace) : list (list string) :=
  flat_map (fun e => match e with EvRemove _ keys => [keys] | _ => [] end) t.

Definition uploadedKeys (t : Trace) : list string :=
  flat_map (fun e => match e with EvUpload _ key _ _ => [key] | _ => [] end) t.

Definition resolvedUrls (t : Trace) : list string :=
  flat_map (fun e => match e with EvGetPublicUrl _ key => [key] | _ => [] end)
           t.

(** Calls to the browser's image machinery. *)
Definition isImageProcessing (e : Event) : bool :=
  match e with
  | EvLoadImage _ | EvToBlob _ _ _ _ _ => true
  | _ => false
  end.

(** Calls to the storage client or to the record store. *)
Definition isBackendCall (e : Event) : bool :=
  match e with
  | EvUpload _ _ _ _ | EvGetPublicUrl _ _ | EvInsert _ _ | EvRemove _ _ =>
      true
  | _ => false
  end.

(** ** A concrete world for examples

    Every image is 400 by 200, the canvas always works, the backend accepts
    everything.  Variants are obtained by overriding single oracles. *)

Definition sampleWorld : World :=
  {| now := 1700000000000%N;
     randomToken := "k3j9x0q1z";
     imageLoad := fun _ => Some (400, 200);
     getContext2d := fun _ _ => true;
     canvasToBlob := fun src w h _ _ =>
       Some (src ++ "@" ++ numberToString (Z.to_N w) ++ "x"
                 ++ numberToString (Z.to_N h));
     storageUpload := fun _ _ => Resolved ok;
     storageGetPublicUrl := fun key => "https://cdn.test/products/" ++ key;
     storageRemove := fun _ => Resolved ok;
     productsInsert := fun _ => Resolved ok;
     uploadRace := LeftFirst;
     removeRace := LeftFirst |}.

Definition withUpload (f : string -> Blob -> Settled ClientResult) (w : World)
  : World :=
  {| now := now w; randomToken := randomToken w; imageLoad := imageLoad w;
     getContext2d := getContext2d w; canvasToBlob := canvasToBlob w;
     storageUpload := f; storageGetPublicUrl := storageGetPublicUrl w;
     storageRemove := storageRemove w; productsInsert := productsInsert w;
     uploadRace := uploadRace w; removeRace := removeRace w |}.

Definition withInsert (f : ProductRow.t -> Settled ClientResult) (w : World)
  : World :=
  {| now := now w; randomToken := randomToken w; imageLoad := imageLoad w;
     getContext2d := getContext2d w; canvasToBlob := canvasToBlob w;
     storageUpload := storageUpload w;
     storageGetPublicUrl := storageGetPublicUrl w;
     storageRemove := storageRemove w; productsInsert := f;
     uploadRace := uploadRace w; removeRace := removeRace w |}.

Definition withRemove (f : list string -> Settled ClientResult) (w : World)
  : World :=
  {| now := now w; randomToken := randomToken w; imageLoad := imageLoad w;
     getContext2d := getContext2d w; canvasToBlob := canvasToBlob w;
     storageUpload := storageUpload w;
     storageGetPublicUrl := storageGetPublicUrl w;
     storageRemove := f; productsInsert := productsInsert w;
     uploadRace := uploadRace w; removeRace := removeRace w |}.

(** Whether [needle] occurs in [s] as a substring. *)
Fixpoint contains (needle s : string) : bool :=
  match s with
  | EmptyString => String.eqb needle EmptyString
  | String _ rest => String.prefix needle s || contains needle rest
  end.

Definition sampleFile : File.t :=
  {| File.name := "shoe.png"; File.bytes := "PNGDATA" |}.

Definition sampleForm (img : option File.t) : ProductFormData.t :=
  {| ProductFormData.name := "Shoe";
     ProductFormData.marketplace := "amazon";
     ProductFormData.marketplace_product_id := "B00X";
     ProductFormData.giveaway := "5";
     ProductFormData.image := img |}.

(** Whether a character occurs in a string. *)
Fixpoint occurs (c : ascii) (s : string) : bool :=
  match s with
  | EmptyString => false
  | String c' rest => Ascii.eqb c' c || occurs c rest
  end.

(** A trace that only talks to the browser's image machinery. *)
Definition browserOnly (t : Trace) : Prop :=
  Forall (fun e => isImageProcessing e = true) t.

(** The record built on lines 155-163 for a given image. *)
Definition rowFor (W : World) (data : ProductFormData.t) (userId : string)
    (image : File.t) : ProductRow.t :=
  {| ProductRow.name := ProductFormData.name data;
     ProductRow.marketplace := ProductFormData.marketplace data;
     ProductRow.marketplace_product_id :=
       ProductFormData.marketplace_product_id data;
     ProductRow.giveaway := ProductFormData.giveaway data;
     ProductRow.image_path :=
       storageGetPublicUrl W (imagePathOf W userId image);
     ProductRow.thumbnail_path :=
       storageGetPublicUrl W (thumbnailPathOf W userId image);
     ProductRow.user_id := userId |}.

(** What the [catch] clause re-throws for a caught value, and what it
    logs. *)
Definition rethrown (v : JsValue) : JsValue :=
  if instanceofError v then v else JsError "Failed to create product".

Definition logged (v : JsValue) : Event :=
  EvConsoleError "Error creating product:" v.

(** The text a thrown value carries: an [Error]'s message, or the value
    itself. *)
Definition textOf (v : JsValue) : string :=
  match v with
  | JsError m => m
  | JsOther p => p
  end.

(** The calls made up to the joint await of the two uploads, after image
    processing left the traces [t1] and [t2]. *)
Definition uploadsDispatched (W : World) (userId : string) (image : File.t)
    (t1 t2 : Trace) (optimizedImage thumbnail : Blob) : Trace :=
  t1 ++ t2 ++
  [EvUpload "products" (imagePathOf W userId image) optimizedImage
            uploadOptions;
   EvUpload "products" (thumbnailPathOf W userId image) thumbnail
            uploadOptions].

(** The calls made up to the await of the insert. *)
Definition insertDispatched (W : World) (data : ProductFormData.t)
    (userId : string) (image : File.t) (t1 t2 : Trace)
    (optimizedImage thumbnail : Blob) : Trace :=
  uploadsDispatched W userId image t1 t2 optimizedImage thumbnail ++
  [EvGetPublicUrl "products" (imagePathOf W userId image);
   EvGetPublicUrl "products" (thumbnailPathOf W userId image);
   EvInsert "products" (rowFor W data userId image)].

(** The calls made up to the joint await of the two deletes. *)
Definition deletesDispatched (W : World) (data : ProductFormData.t)
    (userId : string) (image : File.t) (t1 t2 : Trace)
    (optimizedImage thumbnail : Blob) : Trace :=
  insertDispatched W data userId image t1 t2 optimizedImage thumbnail ++
  [EvRemove "products" [imagePathOf W userId image];
   EvRemove "products" [thumbnailPathOf W userId image]].

(** *** Worlds in which the backend misbehaves *)

(** The record store refuses the row. *)
Definition insertFails : World :=
  withInsert (fun _ => Resolved (failed "duplicate key")) sampleWorld.

(** The record store refuses the row and both deletes return an error. *)
Definition insertFailsDeletesFail : World :=
  withRemove (fun _ => Resolved (failed "object not found")) insertFails.

(** The record store refuses the row and every delete call rejects. *)
Definition insertFailsDeletesReject : World :=
  withRemove (fun _ => Rejected (JsError "storage offline")) insertFails.

(** The record store refuses the row; the image is deleted, the delete of
    the thumbnail rejects. *)
Definition insertFailsThumbnailDeleteRejects : World :=
  withRemove
    (fun keys =>
       if existsb (contains "_thumb.") keys
       then Rejected (JsError "delete failed")
       else Resolved ok)
    insertFails.

(** Only the thumbnail upload returns an error. *)
Definition thumbnailUploadFails : World :=
  withUpload
    (fun key _ =>
       if contains "_thumb." key then Resolved (failed "payload too large")
       else Resolved ok)
    sampleWorld.

(** Both uploads return an error. *)
Definition bothUploadsFail : World :=
  withUpload
    (fun key _ =>
       if contains "_thumb." key then Resolved (failed "payload too large")
       else Resolved (failed "quota exceeded"))
    sampleWorld.

(** The image upload returns an error, the thumbnail upload call rejects. *)
Definition imageUploadFailsThumbnailRejects : World :=
  withUpload
    (fun key _ =>
       if contains "_thumb." key then Rejected (JsError "offline")
       else Resolved (failed "quota exceeded"))
    sampleWorld.

(** Both upload calls reject with a value that is not an [Error]. *)
Definition uploadsRejectWithString : World :=
  withUpload (fun _ _ => Rejected (JsOther "quota exceeded")) sampleWorld.

(** *** More ways to read a run *)

(** The values handed to [console.error]. *)
Definition consoleErrors (t : Trace) : list JsValue :=
  flat_map (fun e => match e with EvConsoleError _ v => [v] | _ => [] end) t.

(** The upload calls with all their arguments. *)
Definition uploadCalls (t : Trace)
  : list (string * string * Blob * UploadOptions) :=
  flat_map (fun e => match e with
                     | EvUpload bucket key body opts =>
                         [(bucket, key, body, opts)]
                     | _ => []
                     end) t.

(** The calls that reach the storage client or the record store. *)
Definition backendCalls (t : Trace) : Trace := filter isBackendCall t.

(** The ways one invocation of [createProduct] can go, each with the trace
    and the completion it produces.  [run_shape] below shows that every
    invocation is one of them. *)
Inductive RunShape (W : World) (data : ProductFormData.t) (userId : string)
  : Async CreateResult -> Prop :=
| MissingImage :
    ProductFormData.image data = None ->
    RunShape W data userId
      ([logged (JsError "Product image is required")],
       Throw (JsError "Product image is required"))
| OptimizeFailed (image : File.t) (t1 : Trace) (v : JsValue) :
    ProductFormData.image data = Some image ->
    optimizeImage W image = (t1, Throw v) ->
    RunShape W data userId ((t1 ++ [logged v])%list, Throw (rethrown v))
| ThumbnailFailed (image : File.t) (t1 t2 : Trace) (optimizedImage : Blob)
    (v : JsValue) :
    ProductFormData.image data = Some image ->
    optimizeImage W image = (t1, Return optimizedImage) ->
    createThumbnail W optimizedImage = (t2, Throw v) ->
    RunShape W data userId
      ((t1 ++ t2 ++ [logged v])%list, Throw (rethrown v))
| UploadsRejected (image : File.t) (t1 t2 : Trace)
    (optimizedImage thumbnail : Blob) (v : JsValue) :
    ProductFormData.image data = Some image ->
    optimizeImage W image = (t1, Return optimizedImage) ->
    createThumbnail W optimizedImage = (t2, Return thumbnail) ->
    promiseAll2 (uploadRace W)
      (storageUpload W (imagePathOf W userId image) optimizedImage)
      (storageUpload W (thumbnailPathOf W userId image) thumbnail)
    = Rejected v ->
    RunShape W data userId
      ((uploadsDispatched W userId image t1 t2 optimizedImage thumbnail
       ++ [logged v])%list,
       Throw (rethrown v))
| UploadReturnedError (image : File.t) (t1 t2 : Trace)
    (optimizedImage thumbnail : Blob) (r1 r2 : ClientResult) (v : JsValue) :
    ProductFormData.image data = Some image ->
    optimizeImage W image = (t1, Return optimizedImage) ->
    createThumbnail W optimizedImage = (t2, Return thumbnail) ->
    storageUpload W (imagePathOf W userId image) optimizedImage
    = Resolved r1 ->
    storageUpload W (thumbnailPathOf W userId image) thumbnail
    = Resolved r2 ->
    (exists e, error r1 = Some e
               /\ v = JsError ("Failed to upload image: " ++ message e))
    \/ (error r1 = None
        /\ exists e, error r2 = Some e
                     /\ v = JsError ("Failed to upload thumbnail: "
                                     ++ message e)) ->
    RunShape W data userId
      ((uploadsDispatched W userId image t1 t2 optimizedImage thumbnail
       ++ [logged v])%list,
       Throw v)
| InsertRejected (image : File.t) (t1 t2 : Trace)
    (optimizedImage thumbnail : Blob) (r1 r2 : ClientResult) (v : JsValue) :
    ProductFormData.image data = Some image ->
    optimizeImage W image = (t1, Return optimizedImage) ->
    createThumbnail W optimizedImage = (t2, Return thumbnail) ->
    storageUpload W (imagePathOf W userId image) optimizedImage
    = Resolved r1 ->
    storageUpload W (thumbnailPathOf W userId image) thumbnail
    = Resolved r2 ->
    error r1 = None ->
    error r2 = None ->
    productsInsert W (rowFor W data userId image) = Rejected v ->
    RunShape W data userId
      ((insertDispatched W data userId image t1 t2 optimizedImage thumbnail
       ++ [logged v])%list,
       Throw (rethrown v))
| Committed (image : File.t) (t1 t2 : Trace)
    (optimizedImage thumbnail : Blob) (r1 r2 r3 : ClientResult) :
    ProductFormData.image data = Some image ->
    optimizeImage W image = (t1, Return optimizedImage) ->
    createThumbnail W optimizedImage = (t2, Return thumbnail) ->
    storageUpload W (imagePathOf W userId image) optimizedImage
    = Resolved r1 ->
    storageUpload W (thumbnailPathOf W userId image) thumbnail
    = Resolved r2 ->
    error r1 = None ->
    error r2 = None ->
    productsInsert W (rowFor W data userId image) = Resolved r3 ->
    error r3 = None ->
    RunShape W data userId
      (insertDispatched W data userId image t1 t2 optimizedImage thumbnail,
       Return {| success := true |})
| Compensated (image : File.t) (t1 t2 : Trace)
    (optimizedImage thumbnail : Blob) (r1 r2 r3 : ClientResult)
    (e : ClientError) (v : JsValue) :
    ProductFormData.image data = Some image ->
    optimizeImage W image = (t1, Return optimizedImage) ->
    createThumbnail W optimizedImage = (t2, Return thumbnail) ->
    storageUpload W (imagePathOf W userId image) optimizedImage
    = Resolved r1 ->
    storageUpload W (thumbnailPathOf W userId image) thumbnail
    = Resolved r2 ->
    error r1 = None ->
    error r2 = None ->
    productsInsert W (rowFor W data userId image) = Resolved r3 ->
    error r3 = Some e ->
    v = match promiseAll2 (removeRace W)
                (storageRemove W [imagePathOf W userId image])
                (storageRemove W [thumbnailPathOf W userId image]) with
        | Resolved _ => JsError ("Failed to create product: " ++ message e)
        | Rejected reason => reason
        end ->
    RunShape W data userId
      ((deletesDispatched W data userId image t1 t2 optimizedImage thumbnail
       ++ [logged v])%list,
       Throw (rethrown v)).

(** *** The form schema (src/lib/types/product.ts)

    [productSchema] is a [z.object] of four [z.string().min(1, message)]
    fields and an optional [File].  A candidate is taken with its four text
    fields present as strings, as a form delivers them, and with its image
    absent or a [File]: on these the clause
    [image: z.instanceof(File).optional()] of line 188 reports nothing, and
    parsing yields one issue, made of the field's path and its message, for
    each string shorter than one character, in the order of the fields.
    Candidates with any other image value ([null], a string) are outside
    this type. *)

Record Issue : Type := { path : string; issueMessage : string }.

(** [z.string().min(n, msg)] on the field [field]. *)
Definition stringMin (n : nat) (msg field value : string) : list Issue :=
  if Nat.ltb (String.length value) n
  then [ {| path := field; issueMessage := msg |} ]
  else [].

(** The issues of [productSchema.safeParse]. *)
Definition productSchema (d : ProductFormData.t) : list Issue :=
  (stringMin 1 "Product name is required" "name" (ProductFormData.name d)
   ++ stringMin 1 "Marketplace is required" "marketplace"
        (ProductFormData.marketplace d)
   ++ stringMin 1 "Marketplace Product ID is required"
        "marketplace_product_id" (ProductFormData.marketplace_product_id d)
   ++ stringMin 1 "Giveaway amount is required" "giveaway"
        (ProductFormData.giveaway d))%list.

(** A form with its image taken out. *)
Definition withoutImage (d : ProductFormData.t) : ProductFormData.t :=
  {| ProductFormData.name := ProductFormData.name d;
     ProductFormData.marketplace := ProductFormData.marketplace d;
     ProductFormData.marketplace_product_id :=
       ProductFormData.marketplace_product_id d;
     ProductFormData.giveaway := ProductFormData.giveaway d;
     ProductFormData.image := None |}.

(** Every image is 1000 by 2. *)
Definition panoramaWorld : World :=
  {| now := now sampleWorld; randomToken := randomToken sampleWorld;
     imageLoad := fun _ => Some (1000, 2);
     getContext2d := getContext2d sampleWorld;
     canvasToBlob := canvasToBlob sampleWorld;
     storageUpload := storageUpload sampleWorld;
     storageGetPublicUrl := storageGetPublicUrl sampleWorld;
     storageRemove := storageRemove sampleWorld;
     productsInsert := productsInsert sampleWorld;
     uploadRace := uploadRace sampleWorld;
     removeRace := removeRace sampleWorld |}.

(** No blob can be decoded. *)
Definition undecodableWorld : World :=
  {| now := now sampleWorld; randomToken := randomToken sampleWorld;
     imageLoad := fun _ => None;
     getContext2d := getContext2d sampleWorld;
     canvasToBlob := canvasToBlob sampleWorld;
     storageUpload := storageUpload sampleWorld;
     storageGetPublicUrl := storageGetPublicUrl sampleWorld;
     storageRemove := storageRemove sampleWorld;
     productsInsert := productsInsert sampleWorld;
     uploadRace := uploadRace sampleWorld;
     removeRace := removeRace sampleWorld |}.

(** The insert call rejects. *)
Definition insertRejects : World :=
  withInsert (fun _ => Rejected (JsError "network down")) sampleWorld.

(** Both upload calls reject. *)
Definition uploadsReject : World :=
  withUpload (fun _ _ => Rejected (JsError "network down")) sampleWorld.

Arguments optimizeImage : simpl never.
Arguments createThumbnail : simpl never.
Arguments imagePathOf : simpl never.
Arguments thumbnailPathOf : simpl never.
Arguments insertedRows : simpl never.
Arguments removedKeys : simpl never.
Arguments uploadedKeys : simpl never.
Arguments resolvedUrls : simpl never.

(** * Properties *)

(** ** The monad computes as expected *)

Lemma bind_return {A B} (t : Trace) (a : A) (k : A -> Async B) :
  bind (t, Return a) k = ((t ++ trace (k a))%list, outcome (k a)).
Proof. unfold bind, trace, outcome. destruct (k a); reflexivity. Qed.

Lemma bind_throw {A B} (t : Trace) (v : JsValue) (k : A -> Async B) :
  bind (t, Throw v) k = (t, Throw v).
Proof. reflexivity. Qed.

Lemma run_eta {A} (m : Async A) : m = (trace m, outcome m).
Proof. destruct m; reflexivity. Qed.

Lemma insertedRows_app (s t : Trace) :
  insertedRows (s ++ t)%list = (insertedRows s ++ insertedRows t)%list.
Proof. apply flat_map_app. Qed.

Lemma removedKeys_app (s t : Trace) :
  removedKeys (s ++ t)%list = (removedKeys s ++ removedKeys t)%list.
Proof. apply flat_map_app. Qed.

Lemma uploadedKeys_app (s t : Trace) :
  uploadedKeys (s ++ t)%list = (uploadedKeys s ++ uploadedKeys t)%list.
Proof. apply flat_map_app. Qed.

Lemma resolvedUrls_app (s t : Trace) :
  resolvedUrls (s ++ t)%list = (resolvedUrls s ++ resolvedUrls t)%list.
Proof. apply flat_map_app. Qed.

(** ** Image processing only talks to the browser *)

Lemma optimizeImage_browserOnly (W : World) (file : File.t) :
  browserOnly (trace (optimizeImage W file)).
Proof.
  unfold optimizeImage, browserOnly. cbn.
  destruct (imageLoad W (File.bytes file)) as [[w h]|]; cbn.
  - destruct (getContext2d W defaultCanvasWidth defaultCanvasHeight); cbn.
    + destruct (canvasToBlob W (File.bytes file) w h "image/jpeg" 0.8%Q);
        cbn; repeat constructor.
    + repeat constructor.
  - repeat constructor.
Qed.

Lemma createThumbnail_browserOnly (W : World) (file : Blob) :
  browserOnly (trace (createThumbnail W file)).
Proof.
  unfold createThumbnail, browserOnly. cbn.
  destruct (imageLoad W file) as [[w h]|]; cbn.
  - destruct (thumbnailSize w h) as [w' h'].
    destruct (getContext2d W w' h'); cbn.
    + destruct (canvasToBlob W file w' h' "image/jpeg" 0.7%Q);
        cbn; repeat constructor.
    + repeat constructor.
  - repeat constructor.
Qed.

Lemma browserOnly_insertedRows (t : Trace) :
  browserOnly t -> insertedRows t = [].
Proof.
  induction 1 as [|e t He _ IH]; [reflexivity|].
  destruct e; cbn in *; try discriminate; exact IH.
Qed.

Lemma browserOnly_removedKeys (t : Trace) :
  browserOnly t -> removedKeys t = [].
Proof.
  induction 1 as [|e t He _ IH]; [reflexivity|].
  destruct e; cbn in *; try discriminate; exact IH.
Qed.

Lemma browserOnly_uploadedKeys (t : Trace) :
  browserOnly t -> uploadedKeys t = [].
Proof.
  induction 1 as [|e t He _ IH]; [reflexivity|].
  destruct e; cbn in *; try discriminate; exact IH.
Qed.

Lemma browserOnly_resolvedUrls (t : Trace) :
  browserOnly t -> resolvedUrls t = [].
Proof.
  induction 1 as [|e t He _ IH]; [reflexivity|].
  destruct e; cbn in *; try discriminate; exact IH.
Qed.

(** Image processing fails only with [Error] objects. *)
Lemma optimizeImage_throws_Error (W : World) (file : File.t) (v : JsValue) :
  outcome (optimizeImage W file) = Throw v -> instanceofError v = true.
Proof.
  unfold optimizeImage. cbn.
  destruct (imageLoad W (File.bytes file)) as [[w h]|]; cbn.
  - destruct (getContext2d W defaultCanvasWidth defaultCanvasHeight); cbn.
    + destruct (canvasToBlob W (File.bytes file) w h "image/jpeg" 0.8%Q);
        cbn; intros [=]; subst; reflexivity.
    + intros [=]; subst; reflexivity.
  - intros [=]; subst; reflexivity.
Qed.

Lemma createThumbnail_throws_Error (W : World) (file : Blob) (v : JsValue) :
  outcome (createThumbnail W file) = Throw v -> instanceofError v = true.
Proof.
  unfold createThumbnail. cbn.
  destruct (imageLoad W file) as [[w h]|]; cbn.
  - destruct (thumbnailSize w h) as [w' h'].
    destruct (getContext2d W w' h'); cbn.
    + destruct (canvasToBlob W file w' h' "image/jpeg" 0.7%Q);
        cbn; intros [=]; subst; reflexivity.
    + intros [=]; subst; reflexivity.
  - intros [=]; subst; reflexivity.
Qed.

Lemma optimizeImage_run_browserOnly
    (W : World) (file : File.t) (t : Trace) (c : Completion Blob) :
  optimizeImage W file = (t, c) -> browserOnly t.
Proof.
  intros E. pose proof (optimizeImage_browserOnly W file) as B.
  rewrite E in B. exact B.
Qed.

Lemma createThumbnail_run_browserOnly
    (W : World) (file : Blob) (t : Trace) (c : Completion Blob) :
  createThumbnail W file = (t, c) -> browserOnly t.
Proof.
  intros E. pose proof (createThumbnail_browserOnly W file) as B.
  rewrite E in B. exact B.
Qed.

(** ** Thumbnail size *)

Lemma roundDiv_nearest (n d : Z) :
  0 < d ->
  let r := roundDiv n d in
  - d < 2 * (d * r) - 2 * n <= d.
Proof.
  intros Hd r. subst r. unfold roundDiv.
  pose proof (Z.div_mod (2 * n + d) (2 * d)) as E.
  pose proof (Z.mod_pos_bound (2 * n + d) (2 * d)) as B.
  lia.
Qed.

Lemma roundDiv_le (n d m : Z) :
  0 < d -> 0 <= m -> n <= d * m -> roundDiv n d <= m.
Proof.
  intros Hd Hm Hn. pose proof (roundDiv_nearest n d Hd) as R. cbv zeta in R.
  nia.
Qed.

Lemma createThumbnail_canvas
    (W : World) (file src : Blob) (w h cw ch : Z) (mime : string) (q : Q) :
  imageLoad W file = Some (w, h) ->
  In (EvToBlob src cw ch mime q) (trace (createThumbnail W file)) ->
  (cw, ch) = thumbnailSize w h /\ src = file /\ mime = "image/jpeg"
  /\ q = 0.7%Q.
Proof.
  intros Hload. unfold createThumbnail. cbn. rewrite Hload.
  destruct (thumbnailSize w h) as [w' h'].
  destruct (getContext2d W w' h'); cbn.
  - destruct (canvasToBlob W file w' h' "image/jpeg" 0.7%Q); cbn;
      intros [E|[E|[]]]; try discriminate; injection E as -> -> -> -> ->;
      repeat split.
  - intros [E|[]]; discriminate.
Qed.

(** With the image decoded as [w] by [h], [createThumbnail] returns a blob
    exactly when the context of a canvas of the thumbnail size is available
    and [toBlob] yields that blob for that size; the run then consists of the
    decoding and of that one encoding. *)
Lemma createThumbnail_returns
    (W : World) (file blob : Blob) (w h : Z) :
  imageLoad W file = Some (w, h) ->
  (outcome (createThumbnail W file) = Return blob
   <-> getContext2d W (fst (thumbnailSize w h)) (snd (thumbnailSize w h))
       = true
       /\ canvasToBlob W file (fst (thumbnailSize w h))
            (snd (thumbnailSize w h)) "image/jpeg" 0.7%Q
          = Some blob)
  /\ (outcome (createThumbnail W file) = Return blob ->
      trace (createThumbnail W file)
      = [EvLoadImage file;
         EvToBlob file (fst (thumbnailSize w h)) (snd (thumbnailSize w h))
                  "image/jpeg" 0.7%Q]).
Proof.
  intros Hload. unfold createThumbnail. cbn. rewrite Hload.
  destruct (thumbnailSize w h) as [w' h']. cbn [fst snd].
  destruct (getContext2d W w' h'); cbn.
  - destruct (canvasToBlob W file w' h' "image/jpeg" 0.7%Q) as [b|]; cbn.
    + split; [split|].
      * intros [= ->]. split; reflexivity.
      * intros [_ [= ->]]. reflexivity.
      * intros _. reflexivity.
    + split; [split|]; try discriminate. intros [_ E]. discriminate.
  - split; [split|]; try discriminate. intros [E _]. discriminate.
Qed.

(** C7: for an image of positive width [w] and height [h], the thumbnail
    canvas is 200 wide and round(h*200/w) high when [w > h], and
    round(w*200/h) wide and 200 high otherwise, where round gives the nearest
    integer (halves upwards); so the longer side is 200 and the shorter side
    keeps the aspect ratio up to that rounding.  400x200 gives 200x100,
    200x400 gives 100x200 and 200x200 gives 200x200.  This is the size of the
    thumbnail that [createThumbnail] produces: whenever it returns a blob for
    an image decoded as [w] by [h], it has decoded the image and encoded it
    once, as JPEG at quality 0.7 on a canvas of exactly that size, and the
    blob returned is that encoding; and it does return whenever the canvas
    context and the encoding are available at that size. *)
Theorem thumbnail_dimensions (w h : Z) :
  0 < w -> 0 < h ->
  (w > h ->
   fst (thumbnailSize w h) = 200
   /\ - w < 2 * (w * snd (thumbnailSize w h)) - 2 * (h * 200) <= w)
  /\ (w <= h ->
      snd (thumbnailSize w h) = 200
      /\ - h < 2 * (h * fst (thumbnailSize w h)) - 2 * (w * 200) <= h)
  /\ Z.max (fst (thumbnailSize w h)) (snd (thumbnailSize w h)) = 200
  /\ (forall (W : World) (file src : Blob) (cw ch : Z) (mime : string)
             (q : Q),
         imageLoad W file = Some (w, h) ->
         In (EvToBlob src cw ch mime q) (trace (createThumbnail W file)) ->
         (cw, ch) = thumbnailSize w h)
  /\ (forall (W : World) (file blob : Blob),
         imageLoad W file = Some (w, h) ->
         (outcome (createThumbnail W file) = Return blob
          <-> getContext2d W (fst (thumbnailSize w h))
                (snd (thumbnailSize w h)) = true
              /\ canvasToBlob W file (fst (thumbnailSize w h))
                   (snd (thumbnailSize w h)) "image/jpeg" 0.7%Q
                 = Some blob)
         /\ (outcome (createThumbnail W file) = Return blob ->
             trace (createThumbnail W file)
             = [EvLoadImage file;
                EvToBlob file (fst (thumbnailSize w h))
                         (snd (thumbnailSize w h)) "image/jpeg" 0.7%Q]))
  /\ thumbnailSize 400 200 = (200, 100)
  /\ thumbnailSize 200 400 = (100, 200)
  /\ thumbnailSize 200 200 = (200, 200).
Proof.
  intros Hw Hh.
  split; [|split; [|split; [|split; [|split; [|repeat split]]]]].
  - intros Hgt. unfold thumbnailSize, maxWidth, maxHeight.
    destruct (Z.gtb_spec w h); [cbn [fst snd] | lia].
    split; [reflexivity|]. apply (roundDiv_nearest (h * 200) w Hw).
  - intros Hle. unfold thumbnailSize, maxWidth, maxHeight.
    destruct (Z.gtb_spec w h); [lia | cbn [fst snd]].
    split; [reflexivity|]. apply (roundDiv_nearest (w * 200) h Hh).
  - unfold thumbnailSize, maxWidth, maxHeight.
    destruct (Z.gtb_spec w h); cbn [fst snd].
    + pose proof (roundDiv_le (h * 200) w 200 Hw). lia.
    + pose proof (roundDiv_le (w * 200) h 200 Hh). lia.
  - intros W file src cw ch mime q Hload Hin.
    apply (createThumbnail_canvas W file src w h cw ch mime q Hload Hin).
  - intros W file blob Hload.
    apply (createThumbnail_returns W file blob w h Hload).
Qed.

Lemma thumbnail_dimensions_witness :
  0 < 400 /\ 0 < 200
  /\ imageLoad sampleWorld "PNGDATA@400x200" = Some (400, 200)
  /\ outcome (createThumbnail sampleWorld "PNGDATA@400x200")
     = Return "PNGDATA@400x200@200x100"
  /\ trace (createThumbnail sampleWorld "PNGDATA@400x200")
     = [EvLoadImage "PNGDATA@400x200";
        EvToBlob "PNGDATA@400x200" 200 100 "image/jpeg" 0.7%Q].
Proof.
  split; [reflexivity|]. split; [reflexivity|]. split; [reflexivity|].
  destruct (thumbnail_dimensions 400 200 eq_refl eq_refl)
    as [_ [_ [_ [_ [Hrun _]]]]].
  destruct (Hrun sampleWorld "PNGDATA@400x200" "PNGDATA@400x200@200x100"
              eq_refl) as [Hiff Htrace].
  assert (Hret : outcome (createThumbnail sampleWorld "PNGDATA@400x200")
                 = Return "PNGDATA@400x200@200x100")
    by (apply Hiff; split; reflexivity).
  split; [exact Hret | exact (Htrace Hret)].
Defined.

(** ** Storage keys *)

Lemma split_nonempty (sep : ascii) (s : string) : split sep s <> [].
Proof.
  induction s as [|c rest IH]; cbn; [discriminate|].
  destruct (Ascii.eqb c sep); [discriminate|].
  destruct (split sep rest); [contradiction | discriminate].
Qed.

Lemma split_no_separator (sep : ascii) (s : string) :
  occurs sep s = false -> split sep s = [s].
Proof.
  induction s as [|c rest IH]; cbn; [reflexivity|].
  destruct (Ascii.eqb c sep); cbn; [discriminate|].
  intros H. rewrite (IH H). reflexivity.
Qed.

Lemma split_append (sep : ascii) (a b : string) :
  split sep (a ++ String sep b) = (split sep a ++ split sep b)%list.
Proof.
  induction a as [|c a IH]; cbn.
  - rewrite Ascii.eqb_refl. reflexivity.
  - destruct (Ascii.eqb c sep); [rewrite IH; reflexivity|].
    rewrite IH. destruct (split sep a) as [|seg segs] eqn:E.
    + exfalso. exact (split_nonempty sep a E).
    + reflexivity.
Qed.

Lemma pop_append (l l' : list string) :
  l' <> [] -> pop (l ++ l') = pop l'.
Proof.
  intros Hl'. induction l as [|x l IH]; [reflexivity|].
  cbn [app pop]. rewrite IH.
  destruct (l ++ l')%list eqn:E; [|reflexivity].
  apply app_eq_nil in E. destruct E as [_ E]. contradiction.
Qed.

(** The extension is what follows the last dot, when that is not empty. *)
Lemma fileExt_after_last_dot (stem ext : string) (content : Blob) :
  occurs "." ext = false ->
  ext <> "" ->
  fileExt {| File.name := stem ++ String "." ext; File.bytes := content |}
  = ext.
Proof.
  intros Hdot Hne. unfold fileExt. cbn [File.name].
  rewrite split_append, (split_no_separator _ ext Hdot).
  rewrite pop_append by discriminate. cbn.
  destruct ext; [contradiction | reflexivity].
Qed.

(** [jpg] is used when nothing follows the last dot, and for an empty
    name. *)
Lemma fileExt_trailing_dot (stem : string) (content : Blob) :
  fileExt {| File.name := stem ++ "."; File.bytes := content |} = "jpg".
Proof.
  unfold fileExt. cbn [File.name].
  rewrite split_append. rewrite pop_append by discriminate. reflexivity.
Qed.

Lemma fileExt_empty_name (content : Blob) :
  fileExt {| File.name := ""; File.bytes := content |} = "jpg".
Proof. reflexivity. Qed.

(** A name without any dot is its own "extension": [split] gives the
    one-element array of the whole name, [pop] returns it, and a non-empty
    string is truthy. *)
Lemma fileExt_without_dot (name : string) (content : Blob) :
  occurs "." name = false ->
  name <> "" ->
  fileExt {| File.name := name; File.bytes := content |} = name.
Proof.
  intros Hdot Hne. unfold fileExt. cbn [File.name].
  rewrite (split_no_separator _ name Hdot). cbn.
  destruct name; [contradiction | reflexivity].
Qed.

Lemma append_assoc (a b c : string) : (a ++ b) ++ c = a ++ b ++ c.
Proof.
  induction a as [|x a IH]; cbn; [reflexivity|]. rewrite IH. reflexivity.
Qed.

(** Both keys are built from the same user id, time stamp, token and
    extension; the thumbnail key only adds [_thumb]. *)
Lemma storage_keys_form (W : World) (userId : string) (image : File.t) :
  imagePathOf W userId image
  = userId ++ "/" ++ numberToString (now W) ++ "_" ++ randomToken W
    ++ "." ++ fileExt image
  /\ thumbnailPathOf W userId image
     = userId ++ "/" ++ numberToString (now W) ++ "_" ++ randomToken W
       ++ "_thumb." ++ fileExt image.
Proof.
  unfold imagePathOf, thumbnailPathOf, baseFilename.
  split; rewrite !append_assoc; reflexivity.
Qed.

Lemma length_append (a b : string) :
  String.length (a ++ b) = (String.length a + String.length b)%nat.
Proof.
  induction a as [|x a IH]; cbn; [reflexivity|]. rewrite IH. reflexivity.
Qed.

(** The two keys of one invocation differ, so the image and its thumbnail
    never overwrite each other and each oracle of the [World] is asked about
    them separately. *)
Lemma storage_keys_distinct (W : World) (userId : string) (image : File.t) :
  imagePathOf W userId image <> thumbnailPathOf W userId image.
Proof.
  destruct (storage_keys_form W userId image) as [-> ->]. intros E.
  apply (f_equal String.length) in E.
  repeat (rewrite length_append in E; cbn [String.length] in E).
  lia.
Qed.

Example split_examples :
  split "." "shoe.png" = ["shoe"; "png"]
  /\ split "." "archive.tar.gz" = ["archive"; "tar"; "gz"]
  /\ split "." "photo" = ["photo"]
  /\ split "." "photo." = ["photo"; ""]
  /\ split "." "" = [""].
Proof. repeat split. Qed.

Example fileExt_examples :
  fileExt {| File.name := "shoe.png"; File.bytes := "" |} = "png"
  /\ fileExt {| File.name := "archive.tar.gz"; File.bytes := "" |} = "gz"
  /\ fileExt {| File.name := "photo."; File.bytes := "" |} = "jpg".
Proof. repeat split. Qed.

(** C6, at a file name without extension: the extension used in both keys is
    the whole file name, not [jpg]. *)
Theorem extension_default_missed :
  let photo := {| File.name := "photo"; File.bytes := "JPEGDATA" |} in
  fileExt photo = "photo"
  /\ imagePathOf sampleWorld "u1" photo = "u1/1700000000000_k3j9x0q1z.photo"
  /\ thumbnailPathOf sampleWorld "u1" photo
     = "u1/1700000000000_k3j9x0q1z_thumb.photo".
Proof. repeat split. Qed.

(** ** The workflow, stage by stage *)

Ltac run_workflow :=
  unfold createProduct, createProductTry, createProductCatch,
    upload, getPublicUrl, insert, remove, await, emit, ret, throw, tryCatch.

Lemma run_missing_image
    (W : World) (data : ProductFormData.t) (userId : string) :
  ProductFormData.image data = None ->
  createProduct W data userId
  = ([logged (JsError "Product image is required")],
     Throw (JsError "Product image is required")).
Proof. intros Himage. run_workflow. rewrite Himage. reflexivity. Qed.

Lemma run_optimize_failed
    (W : World) (data : ProductFormData.t) (userId : string)
    (image : File.t) (t1 : Trace) (v : JsValue) :
  ProductFormData.image data = Some image ->
  optimizeImage W image = (t1, Throw v) ->
  createProduct W data userId = ((t1 ++ [logged v])%list, Throw (rethrown v)).
Proof.
  intros Himage Hopt. run_workflow. rewrite Himage, Hopt. reflexivity.
Qed.

Lemma run_thumbnail_failed
    (W : World) (data : ProductFormData.t) (userId : string)
    (image : File.t) (t1 t2 : Trace) (optimizedImage : Blob) (v : JsValue) :
  ProductFormData.image data = Some image ->
  optimizeImage W image = (t1, Return optimizedImage) ->
  createThumbnail W optimizedImage = (t2, Throw v) ->
  createProduct W data userId
  = ((t1 ++ t2 ++ [logged v])%list, Throw (rethrown v)).
Proof.
  intros Himage Hopt Hth. run_workflow. rewrite Himage, Hopt. cbn.
  rewrite Hth. cbn. rewrite <- app_assoc. reflexivity.
Qed.

Lemma browserOnly_logged_no_insert (t : Trace) (v : JsValue) :
  browserOnly t -> insertedRows (t ++ [logged v]) = [].
Proof.
  intros B. rewrite insertedRows_app, (browserOnly_insertedRows t B).
  reflexivity.
Qed.

(** C2: without an image the workflow fails at once with the validation
    message, and the only thing it does is log that error: no image is
    decoded or encoded, nothing is uploaded, no public URL is resolved, no
    record is inserted and nothing is removed. *)
Theorem missing_image_rejected
    (W : World) (data : ProductFormData.t) (userId : string) :
  ProductFormData.image data = None ->
  outcome (createProduct W data userId)
  = Throw (JsError "Product image is required")
  /\ trace (createProduct W data userId)
     = [EvConsoleError "Error creating product:"
          (JsError "Product image is required")]
  /\ Forall (fun e => isImageProcessing e = false /\ isBackendCall e = false)
            (trace (createProduct W data userId)).
Proof.
  intros Himage. rewrite (run_missing_image W data userId Himage).
  repeat split. repeat constructor.
Qed.

Lemma missing_image_rejected_witness :
  ProductFormData.image (sampleForm None) = None
  /\ outcome (createProduct sampleWorld (sampleForm None) "u1")
     = Throw (JsError "Product image is required").
Proof.
  split; [reflexivity|].
  apply (missing_image_rejected sampleWorld (sampleForm None) "u1").
  reflexivity.
Defined.

Section Processed.

(** An invocation whose image is present and whose two image-processing
    steps succeeded. *)
Variable W : World.
Variables (data : ProductFormData.t) (userId : string) (image : File.t).
Variables (t1 t2 : Trace) (optimizedImage thumbnail : Blob).

Hypothesis Himage : ProductFormData.image data = Some image.
Hypothesis Hoptimize : optimizeImage W image = (t1, Return optimizedImage).
Hypothesis Hthumbnail :
  createThumbnail W optimizedImage = (t2, Return thumbnail).

Local Abbreviation imagePath := (imagePathOf W userId image).
Local Abbreviation thumbnailPath := (thumbnailPathOf W userId image).
Local Abbreviation run := (createProduct W data userId).
Local Abbreviation row := (rowFor W data userId image).
Local Abbreviation uploads :=
  (uploadsDispatched W userId image t1 t2 optimizedImage thumbnail).
Local Abbreviation inserting :=
  (insertDispatched W data userId image t1 t2 optimizedImage thumbnail).
Local Abbreviation deleting :=
  (deletesDispatched W data userId image t1 t2 optimizedImage thumbnail).

Lemma processing_browserOnly : browserOnly t1 /\ browserOnly t2.
Proof.
  split.
  - exact (optimizeImage_run_browserOnly W image t1 _ Hoptimize).
  - exact (createThumbnail_run_browserOnly W optimizedImage t2 _ Hthumbnail).
Qed.

Ltac start_run :=
  run_workflow; rewrite Himage, Hoptimize; cbn;
  rewrite Hthumbnail; cbn.

Ltac finish_run :=
  unfold deletesDispatched, insertDispatched, uploadsDispatched;
  rewrite <- ?app_assoc; reflexivity.

Ltac observe :=
  cbn [trace outcome fst snd];
  unfold deletesDispatched, insertDispatched, uploadsDispatched;
  rewrite ?insertedRows_app, ?removedKeys_app, ?uploadedKeys_app,
    ?resolvedUrls_app;
  rewrite ?(browserOnly_insertedRows t1), ?(browserOnly_insertedRows t2),
    ?(browserOnly_removedKeys t1), ?(browserOnly_removedKeys t2),
    ?(browserOnly_uploadedKeys t1), ?(browserOnly_uploadedKeys t2),
    ?(browserOnly_resolvedUrls t1), ?(browserOnly_resolvedUrls t2)
    by apply processing_browserOnly;
  try reflexivity.

Lemma uploads_observed :
  insertedRows uploads = [] /\ removedKeys uploads = []
  /\ uploadedKeys uploads = [imagePath; thumbnailPath].
Proof. repeat split; observe. Qed.

(** The joint await of the uploads throws. *)
Lemma run_uploads_rejected (v : JsValue) :
  promiseAll2 (uploadRace W)
    (storageUpload W imagePath optimizedImage)
    (storageUpload W thumbnailPath thumbnail) = Rejected v ->
  run = ((uploads ++ [logged v])%list, Throw (rethrown v)).
Proof.
  intros Hall. start_run. rewrite Hall. cbn. finish_run.
Qed.

(** Line 140. *)
Lemma run_image_upload_error (r1 r2 : ClientResult) (e : ClientError) :
  storageUpload W imagePath optimizedImage = Resolved r1 ->
  storageUpload W thumbnailPath thumbnail = Resolved r2 ->
  error r1 = Some e ->
  let v := JsError ("Failed to upload image: " ++ message e) in
  run = ((uploads ++ [logged v])%list, Throw v).
Proof.
  intros H1 H2 He v. subst v. start_run. rewrite H1, H2. cbn.
  rewrite He. cbn. finish_run.
Qed.

(** Line 141. *)
Lemma run_thumbnail_upload_error (r1 r2 : ClientResult) (e : ClientError) :
  storageUpload W imagePath optimizedImage = Resolved r1 ->
  storageUpload W thumbnailPath thumbnail = Resolved r2 ->
  error r1 = None ->
  error r2 = Some e ->
  let v := JsError ("Failed to upload thumbnail: " ++ message e) in
  run = ((uploads ++ [logged v])%list, Throw v).
Proof.
  intros H1 H2 He1 He2 v. subst v. start_run. rewrite H1, H2. cbn.
  rewrite He1, He2. cbn. finish_run.
Qed.

(** An upload call that rejects stops the run before anything is inserted
    or deleted, also when the other upload returned an error. *)
Lemma uploads_rejected_no_insert (v : JsValue) :
  promiseAll2 (uploadRace W)
    (storageUpload W imagePath optimizedImage)
    (storageUpload W thumbnailPath thumbnail) = Rejected v ->
  insertedRows (trace run) = [] /\ removedKeys (trace run) = [].
Proof.
  intros Hall. rewrite (run_uploads_rejected v Hall). split; observe.
Qed.

(** C3, as amended: when at least one of the two uploads returns an error,
    no record is inserted, nothing is deleted, and the workflow fails.  When
    both upload calls resolve, it fails with a message that names the asset
    whose upload failed and carries that upload's error message: the image
    when its upload failed, otherwise the thumbnail.  When the other upload
    call rejects, it fails with that rejection, as the [catch] clause
    re-throws it. *)
Theorem upload_error_no_insert :
  (exists r e, storageUpload W imagePath optimizedImage = Resolved r
               /\ error r = Some e)
  \/ (exists r e, storageUpload W thumbnailPath thumbnail = Resolved r
                  /\ error r = Some e) ->
  insertedRows (trace run) = []
  /\ removedKeys (trace run) = []
  /\ (exists v, outcome run = Throw v)
  /\ (forall r1 r2 : ClientResult,
        storageUpload W imagePath optimizedImage = Resolved r1 ->
        storageUpload W thumbnailPath thumbnail = Resolved r2 ->
        (exists e, error r1 = Some e
                   /\ outcome run
                      = Throw (JsError ("Failed to upload image: "
                                        ++ message e)))
        \/ (error r1 = None
            /\ exists e, error r2 = Some e
                         /\ outcome run
                            = Throw (JsError ("Failed to upload thumbnail: "
                                              ++ message e))))
  /\ (forall reason : JsValue,
        storageUpload W imagePath optimizedImage = Rejected reason
        \/ storageUpload W thumbnailPath thumbnail = Rejected reason ->
        outcome run
        = Throw (if instanceofError reason then reason
                 else JsError "Failed to create product")).
Proof.
  intros Herr.
  destruct (storageUpload W imagePath optimizedImage) as [r1|v1] eqn:H1;
    destruct (storageUpload W thumbnailPath thumbnail) as [r2|v2] eqn:H2.
  - assert (Hsome : error r1 <> None \/ error r2 <> None).
    { destruct Herr as [[r [e [[= <-] He]]]|[r [e [[= <-] He]]]];
        [left | right]; rewrite He; discriminate. }
    destruct (error r1) as [e1|] eqn:He1.
    + rewrite (run_image_upload_error r1 r2 e1 H1 H2 He1).
      repeat split; observe.
      * eexists. reflexivity.
      * intros r1' r2' [= <-] [= <-]. left. exists e1.
        split; [exact He1 | reflexivity].
      * intros reason [E|E]; discriminate.
    + destruct (error r2) as [e2|] eqn:He2.
      * rewrite (run_thumbnail_upload_error r1 r2 e2 H1 H2 He1 He2).
        repeat split; observe.
        -- eexists. reflexivity.
        -- intros r1' r2' [= <-] [= <-]. right. split; [exact He1|].
           exists e2. split; [exact He2 | reflexivity].
        -- intros reason [E|E]; discriminate.
      * destruct Hsome as [Hsome|Hsome]; contradiction.
  - assert (Hall : promiseAll2 (uploadRace W)
                     (storageUpload W imagePath optimizedImage)
                     (storageUpload W thumbnailPath thumbnail) = Rejected v2)
      by (rewrite H1, H2; reflexivity).
    rewrite (run_uploads_rejected v2 Hall).
    repeat split; observe.
    + eexists. reflexivity.
    + intros r1' r2' _ E. discriminate.
    + intros reason [E|[= <-]]; [discriminate | reflexivity].
  - assert (Hall : promiseAll2 (uploadRace W)
                     (storageUpload W imagePath optimizedImage)
                     (storageUpload W thumbnailPath thumbnail) = Rejected v1)
      by (rewrite H1, H2; reflexivity).
    rewrite (run_uploads_rejected v1 Hall).
    repeat split; observe.
    + eexists. reflexivity.
    + intros r1' r2' E. discriminate.
    + intros reason [[= <-]|E]; [reflexivity | discriminate].
  - destruct Herr as [[r [e [E _]]]|[r [e [E _]]]]; discriminate.
Qed.

(** C10: when both uploads return errors, the image upload's error is the
    one reported: the run stops right after the two upload calls, logs and
    throws [Failed to upload image: ...] with the image upload's message,
    and the thumbnail upload's error appears nowhere in the run. *)
Theorem both_uploads_fail_reports_image
    (r1 r2 : ClientResult) (e1 e2 : ClientError) :
  storageUpload W imagePath optimizedImage = Resolved r1 ->
  storageUpload W thumbnailPath thumbnail = Resolved r2 ->
  error r1 = Some e1 ->
  error r2 = Some e2 ->
  run = ((t1 ++ t2 ++
          [EvUpload "products" imagePath optimizedImage uploadOptions;
           EvUpload "products" thumbnailPath thumbnail uploadOptions;
           EvConsoleError "Error creating product:"
             (JsError ("Failed to upload image: " ++ message e1))])%list,
         Throw (JsError ("Failed to upload image: " ++ message e1))).
Proof.
  intros H1 H2 He1 _.
  rewrite (run_image_upload_error r1 r2 e1 H1 H2 He1).
  unfold uploadsDispatched, logged. rewrite <- !app_assoc. reflexivity.
Qed.

Section Uploaded.

(** Both uploads resolved without an error. *)
Variables r1 r2 : ClientResult.
Hypothesis Hupload1 :
  storageUpload W imagePath optimizedImage = Resolved r1.
Hypothesis Hupload2 :
  storageUpload W thumbnailPath thumbnail = Resolved r2.
Hypothesis Hok1 : error r1 = None.
Hypothesis Hok2 : error r2 = None.

Ltac start_insert :=
  start_run; rewrite Hupload1, Hupload2; cbn; rewrite Hok1, Hok2; cbn;
  fold row.

Lemma run_insert_rejected (v : JsValue) :
  productsInsert W row = Rejected v ->
  run = ((inserting ++ [logged v])%list, Throw (rethrown v)).
Proof.
  intros Hins. start_insert. rewrite Hins. cbn. finish_run.
Qed.

Lemma run_committed (r3 : ClientResult) :
  productsInsert W row = Resolved r3 ->
  error r3 = None ->
  run = (inserting, Return {| success := true |}).
Proof.
  intros Hins Hok3. start_insert. rewrite Hins. cbn. rewrite Hok3. cbn.
  finish_run.
Qed.

(** Lines 165-173: the insert returned an error; both deletes are called,
    awaited together, and only then is the insert error thrown. *)
Lemma run_compensated (r3 : ClientResult) (e : ClientError) :
  productsInsert W row = Resolved r3 ->
  error r3 = Some e ->
  let v :=
    match promiseAll2 (removeRace W) (storageRemove W [imagePath])
                      (storageRemove W [thumbnailPath]) with
    | Resolved _ => JsError ("Failed to create product: " ++ message e)
    | Rejected reason => reason
    end in
  run = ((deleting ++ [logged v])%list, Throw (rethrown v)).
Proof.
  intros Hins He v. subst v. start_insert. rewrite Hins. cbn.
  rewrite He. cbn.
  destruct (promiseAll2 (removeRace W) (storageRemove W [imagePath])
              (storageRemove W [thumbnailPath])) as [[d1 d2]|reason];
    cbn; finish_run.
Qed.

(** C1: with an image present, when optimization, thumbnail creation, both
    uploads and the insert succeed, the workflow returns [{ success: true }]
    and nothing else, and it inserts exactly one record: its two paths are
    the public URLs the storage client gives for the two generated keys, its
    other fields come from the form and the user id.  The keys uploaded and
    the keys whose URLs are resolved are the two generated keys, and nothing
    is deleted. *)
Theorem createProduct_success (r3 : ClientResult) :
  productsInsert W row = Resolved r3 ->
  error r3 = None ->
  outcome run = Return {| success := true |}
  /\ insertedRows (trace run)
     = [ {| ProductRow.name := ProductFormData.name data;
            ProductRow.marketplace := ProductFormData.marketplace data;
            ProductRow.marketplace_product_id :=
              ProductFormData.marketplace_product_id data;
            ProductRow.giveaway := ProductFormData.giveaway data;
            ProductRow.image_path := storageGetPublicUrl W imagePath;
            ProductRow.thumbnail_path := storageGetPublicUrl W thumbnailPath;
            ProductRow.user_id := userId |} ]
  /\ uploadedKeys (trace run) = [imagePath; thumbnailPath]
  /\ resolvedUrls (trace run) = [imagePath; thumbnailPath]
  /\ removedKeys (trace run) = [].
Proof.
  intros Hins Hok3. rewrite (run_committed r3 Hins Hok3).
  repeat split; observe.
Qed.

(** C4, as amended: when both uploads succeed and the insert returns an
    error, exactly two delete calls are issued, the first for the image key
    and the second for the thumbnail key, which are the two keys that were
    uploaded; one record insert was attempted; the deletes come after the
    insert and are awaited together before anything is logged or thrown.
    Once both delete calls have resolved, whatever they return, the workflow
    fails with the insert error's message behind the prefix of line 172; when
    the joint await of the deletes rejects, it fails with that rejection, as
    the [catch] clause re-throws it. *)
Theorem insert_error_compensated (r3 : ClientResult) (e : ClientError) :
  productsInsert W row = Resolved r3 ->
  error r3 = Some e ->
  removedKeys (trace run) = [[imagePath]; [thumbnailPath]]
  /\ uploadedKeys (trace run) = [imagePath; thumbnailPath]
  /\ insertedRows (trace run) = [row]
  /\ (forall d1 d2 : ClientResult,
        storageRemove W [imagePath] = Resolved d1 ->
        storageRemove W [thumbnailPath] = Resolved d2 ->
        outcome run
        = Throw (JsError ("Failed to create product: " ++ message e)))
  /\ (forall reason : JsValue,
        promiseAll2 (removeRace W) (storageRemove W [imagePath])
                    (storageRemove W [thumbnailPath]) = Rejected reason ->
        outcome run
        = Throw (if instanceofError reason then reason
                 else JsError "Failed to create product"))
  /\ (exists caught : JsValue,
        trace run
        = (inserting
           ++ [EvRemove "products" [imagePath];
               EvRemove "products" [thumbnailPath];
               EvConsoleError "Error creating product:" caught])%list).
Proof.
  intros Hins He. rewrite (run_compensated r3 e Hins He).
  split; [observe|]. split; [observe|]. split; [observe|].
  split; [|split].
  - intros d1 d2 Hd1 Hd2. rewrite Hd1, Hd2. reflexivity.
  - intros reason Hrej. rewrite Hrej. reflexivity.
  - eexists. cbn [trace fst]. unfold deletesDispatched, logged.
    rewrite <- app_assoc. reflexivity.
Qed.

(** C5, as amended: the two compensating deletes are awaited together before
    anything is thrown.  What they return is not looked at: when both
    resolve, with or without an error in their result, the caller receives
    the insert error.  When the joint await rejects, the caller receives
    what the [catch] clause makes of that rejection, not the insert
    error. *)
Theorem compensation_awaited (r3 : ClientResult) (e : ClientError) :
  productsInsert W row = Resolved r3 ->
  error r3 = Some e ->
  (forall d1 d2 : ClientResult,
      storageRemove W [imagePath] = Resolved d1 ->
      storageRemove W [thumbnailPath] = Resolved d2 ->
      run = ((deleting
              ++ [EvConsoleError "Error creating product:"
                    (JsError ("Failed to create product: " ++ message e))])
             %list,
             Throw (JsError ("Failed to create product: " ++ message e))))
  /\ (forall reason : JsValue,
        promiseAll2 (removeRace W) (storageRemove W [imagePath])
                    (storageRemove W [thumbnailPath]) = Rejected reason ->
        run = ((deleting
                ++ [EvConsoleError "Error creating product:" reason])%list,
               Throw (if instanceofError reason then reason
                      else JsError "Failed to create product"))).
Proof.
  intros Hins He. rewrite (run_compensated r3 e Hins He). split.
  - intros d1 d2 Hd1 Hd2. rewrite Hd1, Hd2. reflexivity.
  - intros reason Hrej. rewrite Hrej. reflexivity.
Qed.

End Uploaded.

End Processed.

(** ** Invariants of every run *)

(** C8: a record is inserted only after both uploads were found free of
    errors.  Whenever a run inserts a record, the image was present, both
    upload calls had resolved without an error, the two uploads are the only
    uploads made before the insert, nothing was inserted before it or after
    it, and the record's two paths are the public URLs of exactly those two
    uploaded keys. *)
Theorem insert_only_after_uploads
    (W : World) (data : ProductFormData.t) (userId : string)
    (inserted : ProductRow.t) :
  In inserted (insertedRows (trace (createProduct W data userId))) ->
  exists (image : File.t) (optimizedImage thumbnail : Blob)
         (r1 r2 : ClientResult) (before after : Trace),
    ProductFormData.image data = Some image
    /\ storageUpload W (imagePathOf W userId image) optimizedImage
       = Resolved r1
    /\ error r1 = None
    /\ storageUpload W (thumbnailPathOf W userId image) thumbnail
       = Resolved r2
    /\ error r2 = None
    /\ trace (createProduct W data userId)
       = (before ++ EvInsert "products" inserted :: after)%list
    /\ In (EvUpload "products" (imagePathOf W userId image) optimizedImage
                    uploadOptions) before
    /\ In (EvUpload "products" (thumbnailPathOf W userId image) thumbnail
                    uploadOptions) before
    /\ uploadedKeys before
       = [imagePathOf W userId image; thumbnailPathOf W userId image]
    /\ insertedRows before = []
    /\ insertedRows after = []
    /\ ProductRow.image_path inserted
       = storageGetPublicUrl W (imagePathOf W userId image)
    /\ ProductRow.thumbnail_path inserted
       = storageGetPublicUrl W (thumbnailPathOf W userId image).
Proof.
  destruct (ProductFormData.image data) as [image|] eqn:Himage.
  2:{ rewrite (run_missing_image W data userId Himage). intros []. }
  destruct (optimizeImage W image) as [t1 [optimizedImage|v]] eqn:Hopt.
  2:{ rewrite (run_optimize_failed W data userId image t1 v Himage Hopt).
      cbn [trace fst]. rewrite browserOnly_logged_no_insert; [intros []|].
      exact (optimizeImage_run_browserOnly W image t1 _ Hopt). }
  destruct (createThumbnail W optimizedImage) as [t2 [thumbnail|v]] eqn:Hth.
  2:{ rewrite (run_thumbnail_failed W data userId image t1 t2 optimizedImage
                 v Himage Hopt Hth).
      cbn [trace fst]. rewrite app_assoc.
      rewrite browserOnly_logged_no_insert; [intros []|].
      apply Forall_app. split.
      - exact (optimizeImage_run_browserOnly W image t1 _ Hopt).
      - exact (createThumbnail_run_browserOnly W optimizedImage t2 _ Hth). }
  destruct (uploads_observed W userId image t1 t2 optimizedImage thumbnail
              Hopt Hth) as [Hdisp [_ Hkeys]].
  destruct (promiseAll2 (uploadRace W)
              (storageUpload W (imagePathOf W userId image) optimizedImage)
              (storageUpload W (thumbnailPathOf W userId image) thumbnail))
    as [[r1 r2]|v] eqn:Hall.
  2:{ rewrite (run_uploads_rejected W data userId image t1 t2 optimizedImage
                 thumbnail Himage Hopt Hth v Hall).
      cbn [trace fst]. rewrite insertedRows_app, Hdisp. intros []. }
  destruct (storageUpload W (imagePathOf W userId image) optimizedImage)
    as [r1'|v1] eqn:H1;
    destruct (storageUpload W (thumbnailPathOf W userId image) thumbnail)
      as [r2'|v2] eqn:H2; cbn in Hall; try discriminate.
  injection Hall as -> ->.
  destruct (error r1) as [e1|] eqn:He1.
  { rewrite (run_image_upload_error W data userId image t1 t2 optimizedImage
               thumbnail Himage Hopt Hth r1 r2 e1 H1 H2 He1).
    cbn [trace fst]. rewrite insertedRows_app, Hdisp. intros []. }
  destruct (error r2) as [e2|] eqn:He2.
  { rewrite (run_thumbnail_upload_error W data userId image t1 t2
               optimizedImage thumbnail Himage Hopt Hth r1 r2 e2 H1 H2 He1
               He2).
    cbn [trace fst]. rewrite insertedRows_app, Hdisp. intros []. }
  intros Hin.
  assert (Hshape :
    exists after,
      trace (createProduct W data userId)
      = ((uploadsDispatched W userId image t1 t2 optimizedImage thumbnail
          ++ [EvGetPublicUrl "products" (imagePathOf W userId image);
              EvGetPublicUrl "products" (thumbnailPathOf W userId image)])
         ++ EvInsert "products" (rowFor W data userId image) :: after)%list
      /\ insertedRows after = []).
  { destruct (productsInsert W (rowFor W data userId image))
      as [r3|v] eqn:Hins.
    - destruct (error r3) as [e3|] eqn:He3.
      + rewrite (run_compensated W data userId image t1 t2 optimizedImage
                   thumbnail Himage Hopt Hth r1 r2 H1 H2 He1 He2 r3 e3 Hins
                   He3).
        cbn [trace fst]. unfold deletesDispatched, insertDispatched.
        eexists. rewrite <- !app_assoc. cbn [app]. split; reflexivity.
      + rewrite (run_committed W data userId image t1 t2 optimizedImage
                   thumbnail Himage Hopt Hth r1 r2 H1 H2 He1 He2 r3 Hins
                   He3).
        cbn [trace fst]. unfold insertDispatched.
        exists []. rewrite <- !app_assoc. cbn [app]. split; reflexivity.
    - rewrite (run_insert_rejected W data userId image t1 t2 optimizedImage
                 thumbnail Himage Hopt Hth r1 r2 H1 H2 He1 He2 v Hins).
      cbn [trace fst]. unfold insertDispatched.
      eexists. rewrite <- !app_assoc. cbn [app]. split; reflexivity. }
  destruct Hshape as [after [Htrace Hafter]].
  assert (Hrow : inserted = rowFor W data userId image).
  { rewrite Htrace in Hin.
    rewrite !insertedRows_app, Hdisp in Hin.
    change (insertedRows
              (EvInsert "products" (rowFor W data userId image) :: after))
      with (rowFor W data userId image :: insertedRows after) in Hin.
    rewrite Hafter in Hin. cbn in Hin.
    destruct Hin as [E|[]]. symmetry. exact E. }
  subst inserted.
  exists image, optimizedImage, thumbnail, r1, r2.
  eexists. exists after.
  split; [reflexivity|]. split; [exact H1|]. split; [exact He1|].
  split; [exact H2|]. split; [exact He2|].
  split; [exact Htrace|].
  split; [unfold uploadsDispatched; rewrite !in_app_iff; cbn; tauto|].
  split; [unfold uploadsDispatched; rewrite !in_app_iff; cbn; tauto|].
  split; [rewrite uploadedKeys_app, Hkeys; reflexivity|].
  split; [rewrite insertedRows_app, Hdisp; reflexivity|].
  split; [exact Hafter|]. split; reflexivity.
Qed.

(** ** What the caller receives *)

Lemma createProduct_catches
    (W : World) (data : ProductFormData.t) (userId : string) :
  createProduct W data userId
  = match createProductTry W data userId with
    | (t, Return r) => (t, Return r)
    | (t, Throw v) => ((t ++ [logged v])%list, Throw (rethrown v))
    end.
Proof.
  unfold createProduct, tryCatch.
  destruct (createProductTry W data userId) as [t [r|v]]; reflexivity.
Qed.

Lemma rethrown_is_Error (v : JsValue) : instanceofError (rethrown v) = true.
Proof. destruct v; reflexivity. Qed.

(** The caller never receives a thrown value that is not an [Error]. *)
Lemma createProduct_throws_Error
    (W : World) (data : ProductFormData.t) (userId : string) (v : JsValue) :
  outcome (createProduct W data userId) = Throw v ->
  instanceofError v = true.
Proof.
  rewrite createProduct_catches.
  destruct (createProductTry W data userId) as [t [r|v']]; cbn.
  - discriminate.
  - intros [= <-]. apply rethrown_is_Error.
Qed.

(** C9, as amended: every failure inside the workflow is caught at the top
    level, logged, and re-thrown as an [Error].  A failure that is an
    [Error] is re-thrown as it is, with its message; a thrown value that is
    not an [Error] is replaced by [Error('Failed to create product')],
    whatever that value was. *)
Theorem failure_rethrown_as_Error
    (W : World) (data : ProductFormData.t) (userId : string) (v : JsValue) :
  outcome (createProductTry W data userId) = Throw v ->
  createProduct W data userId
  = ((trace (createProductTry W data userId)
      ++ [EvConsoleError "Error creating product:" v])%list,
     Throw (match v with
            | JsError m => JsError m
            | JsOther _ => JsError "Failed to create product"
            end)).
Proof.
  intros Hthrow. rewrite createProduct_catches.
  destruct (createProductTry W data userId) as [t [r|v']]; cbn in *.
  - discriminate.
  - injection Hthrow as ->. destruct v; reflexivity.
Qed.

Lemma failure_rethrown_as_Error_witness :
  outcome (createProductTry sampleWorld (sampleForm None) "u1")
  = Throw (JsError "Product image is required")
  /\ outcome (createProduct sampleWorld (sampleForm None) "u1")
     = Throw (JsError "Product image is required").
Proof.
  split; [reflexivity|].
  pose proof (failure_rethrown_as_Error sampleWorld (sampleForm None) "u1"
                (JsError "Product image is required") eq_refl) as H.
  rewrite H. reflexivity.
Defined.

(** C9 as stated fails: a rejected upload whose reason is the string
    [quota exceeded] reaches the caller as an [Error] whose message does not
    carry that text. *)
Lemma non_error_failure_not_wrapped :
  outcome (createProductTry uploadsRejectWithString
             (sampleForm (Some sampleFile)) "u1")
  = Throw (JsOther "quota exceeded")
  /\ exists m,
       outcome (createProduct uploadsRejectWithString
                  (sampleForm (Some sampleFile)) "u1")
       = Throw (JsError m)
       /\ contains (textOf (JsOther "quota exceeded")) m = false.
Proof.
  split; [reflexivity|].
  exists "Failed to create product". split; reflexivity.
Qed.

(** ** Concrete runs *)

Lemma createProduct_success_witness :
  ProductFormData.image (sampleForm (Some sampleFile)) = Some sampleFile
  /\ outcome (createProduct sampleWorld (sampleForm (Some sampleFile)) "u1")
     = Return {| success := true |}
  /\ insertedRows
       (trace (createProduct sampleWorld (sampleForm (Some sampleFile)) "u1"))
     = [ {| ProductRow.name := "Shoe";
            ProductRow.marketplace := "amazon";
            ProductRow.marketplace_product_id := "B00X";
            ProductRow.giveaway := "5";
            ProductRow.image_path :=
              "https://cdn.test/products/u1/1700000000000_k3j9x0q1z.png";
            ProductRow.thumbnail_path :=
              "https://cdn.test/products/u1/1700000000000_k3j9x0q1z_thumb.png";
            ProductRow.user_id := "u1" |} ].
Proof.
  split; [reflexivity|].
  pose proof (createProduct_success sampleWorld
                (sampleForm (Some sampleFile)) "u1" sampleFile
                (trace (optimizeImage sampleWorld sampleFile))
                (trace (createThumbnail sampleWorld "PNGDATA@400x200"))
                "PNGDATA@400x200" "PNGDATA@400x200@200x100"
                eq_refl eq_refl eq_refl ok ok eq_refl eq_refl eq_refl eq_refl
                ok eq_refl eq_refl) as H.
  split; [apply H|]. destruct H as [_ [H _]]. exact H.
Defined.

Lemma upload_error_no_insert_witness :
  storageUpload imageUploadFailsThumbnailRejects
    (imagePathOf imageUploadFailsThumbnailRejects "u1" sampleFile)
    "PNGDATA@400x200"
  = Resolved (failed "quota exceeded")
  /\ insertedRows
       (trace (createProduct imageUploadFailsThumbnailRejects
                 (sampleForm (Some sampleFile)) "u1")) = []
  /\ removedKeys
       (trace (createProduct imageUploadFailsThumbnailRejects
                 (sampleForm (Some sampleFile)) "u1")) = []
  /\ storageUpload thumbnailUploadFails
       (thumbnailPathOf thumbnailUploadFails "u1" sampleFile)
       "PNGDATA@400x200@200x100"
     = Resolved (failed "payload too large")
  /\ outcome (createProduct thumbnailUploadFails
                (sampleForm (Some sampleFile)) "u1")
     = Throw (JsError "Failed to upload thumbnail: payload too large").
Proof.
  split; [reflexivity|].
  pose proof (upload_error_no_insert imageUploadFailsThumbnailRejects
                (sampleForm (Some sampleFile)) "u1" sampleFile
                (trace (optimizeImage imageUploadFailsThumbnailRejects
                          sampleFile))
                (trace (createThumbnail imageUploadFailsThumbnailRejects
                          "PNGDATA@400x200"))
                "PNGDATA@400x200" "PNGDATA@400x200@200x100"
                eq_refl eq_refl eq_refl
                (or_introl
                   (ex_intro _ (failed "quota exceeded")
                      (ex_intro _ {| message := "quota exceeded" |}
                         (conj eq_refl eq_refl))))) as Hreject.
  split; [apply Hreject|]. split; [apply Hreject|].
  split; [reflexivity|].
  pose proof (upload_error_no_insert thumbnailUploadFails
                (sampleForm (Some sampleFile)) "u1" sampleFile
                (trace (optimizeImage thumbnailUploadFails sampleFile))
                (trace (createThumbnail thumbnailUploadFails
                          "PNGDATA@400x200"))
                "PNGDATA@400x200" "PNGDATA@400x200@200x100"
                eq_refl eq_refl eq_refl
                (or_intror
                   (ex_intro _ (failed "payload too large")
                      (ex_intro _ {| message := "payload too large" |}
                         (conj eq_refl eq_refl))))) as Hreturn.
  destruct Hreturn as [_ [_ [_ [Hboth _]]]].
  destruct (Hboth ok (failed "payload too large") eq_refl eq_refl)
    as [[e [He _]]|[_ [e [He Hout]]]].
  - discriminate He.
  - injection He as <-. exact Hout.
Defined.

(** C3 as stated fails: the image upload returns an error while the
    thumbnail upload call rejects; the caller receives the rejection, whose
    message names no asset. *)
Lemma upload_error_with_rejecting_sibling :
  storageUpload imageUploadFailsThumbnailRejects
    (imagePathOf imageUploadFailsThumbnailRejects "u1" sampleFile)
    "PNGDATA@400x200"
  = Resolved (failed "quota exceeded")
  /\ outcome (createProduct imageUploadFailsThumbnailRejects
                (sampleForm (Some sampleFile)) "u1")
     = Throw (JsError "offline")
  /\ forall asset m : string,
       outcome (createProduct imageUploadFailsThumbnailRejects
                  (sampleForm (Some sampleFile)) "u1")
       <> Throw (JsError ("Failed to upload " ++ asset ++ ": " ++ m)).
Proof.
  split; [reflexivity|]. split; [reflexivity|].
  intros asset m. cbn. discriminate.
Qed.

Lemma both_uploads_fail_reports_image_witness :
  storageUpload bothUploadsFail
    (thumbnailPathOf bothUploadsFail "u1" sampleFile)
    "PNGDATA@400x200@200x100"
  = Resolved (failed "payload too large")
  /\ outcome (createProduct bothUploadsFail
                (sampleForm (Some sampleFile)) "u1")
     = Throw (JsError "Failed to upload image: quota exceeded").
Proof.
  split; [reflexivity|].
  pose proof (both_uploads_fail_reports_image bothUploadsFail
                (sampleForm (Some sampleFile)) "u1" sampleFile
                (trace (optimizeImage bothUploadsFail sampleFile))
                (trace (createThumbnail bothUploadsFail "PNGDATA@400x200"))
                "PNGDATA@400x200" "PNGDATA@400x200@200x100"
                eq_refl eq_refl eq_refl
                (failed "quota exceeded") (failed "payload too large")
                {| message := "quota exceeded" |}
                {| message := "payload too large" |}
                eq_refl eq_refl eq_refl eq_refl) as H.
  rewrite H. reflexivity.
Defined.

Lemma insert_error_compensated_witness :
  productsInsert insertFails
    (rowFor insertFails (sampleForm (Some sampleFile)) "u1" sampleFile)
  = Resolved (failed "duplicate key")
  /\ removedKeys
       (trace (createProduct insertFails (sampleForm (Some sampleFile)) "u1"))
     = [["u1/1700000000000_k3j9x0q1z.png"];
        ["u1/1700000000000_k3j9x0q1z_thumb.png"]]
  /\ outcome (createProduct insertFails (sampleForm (Some sampleFile)) "u1")
     = Throw (JsError "Failed to create product: duplicate key").
Proof.
  split; [reflexivity|].
  pose proof (insert_error_compensated insertFails
                (sampleForm (Some sampleFile)) "u1" sampleFile
                (trace (optimizeImage insertFails sampleFile))
                (trace (createThumbnail insertFails "PNGDATA@400x200"))
                "PNGDATA@400x200" "PNGDATA@400x200@200x100"
                eq_refl eq_refl eq_refl ok ok eq_refl eq_refl eq_refl eq_refl
                (failed "duplicate key") {| message := "duplicate key" |}
                eq_refl eq_refl) as H.
  destruct H as [Hremoved [_ [_ [Houtcome _]]]].
  split; [exact Hremoved|].
  exact (Houtcome ok ok eq_refl eq_refl).
Defined.

(** C4 as stated fails: the insert returns an error and the delete calls
    reject; both deletes are issued, but the caller receives the rejection
    of the first delete instead of the insert error. *)
Lemma insert_error_masked_by_rejected_delete :
  productsInsert insertFailsDeletesReject
    (rowFor insertFailsDeletesReject (sampleForm (Some sampleFile)) "u1"
            sampleFile)
  = Resolved (failed "duplicate key")
  /\ removedKeys
       (trace (createProduct insertFailsDeletesReject
                 (sampleForm (Some sampleFile)) "u1"))
     = [["u1/1700000000000_k3j9x0q1z.png"];
        ["u1/1700000000000_k3j9x0q1z_thumb.png"]]
  /\ outcome (createProduct insertFailsDeletesReject
                (sampleForm (Some sampleFile)) "u1")
     = Throw (JsError "storage offline")
  /\ outcome (createProduct insertFailsDeletesReject
                (sampleForm (Some sampleFile)) "u1")
     <> Throw (JsError "Failed to create product: duplicate key").
Proof.
  repeat split. discriminate.
Qed.

Lemma compensation_awaited_witness :
  storageRemove insertFailsDeletesFail
    [imagePathOf insertFailsDeletesFail "u1" sampleFile]
  = Resolved (failed "object not found")
  /\ outcome (createProduct insertFailsDeletesFail
                (sampleForm (Some sampleFile)) "u1")
     = Throw (JsError "Failed to create product: duplicate key").
Proof.
  split; [reflexivity|].
  pose proof (compensation_awaited insertFailsDeletesFail
                (sampleForm (Some sampleFile)) "u1" sampleFile
                (trace (optimizeImage insertFailsDeletesFail sampleFile))
                (trace (createThumbnail insertFailsDeletesFail
                          "PNGDATA@400x200"))
                "PNGDATA@400x200" "PNGDATA@400x200@200x100"
                eq_refl eq_refl eq_refl ok ok eq_refl eq_refl eq_refl eq_refl
                (failed "duplicate key") {| message := "duplicate key" |}
                eq_refl eq_refl) as H.
  destruct H as [Hresolved _].
  rewrite (Hresolved (failed "object not found") (failed "object not found")
             eq_refl eq_refl).
  reflexivity.
Defined.

(** C5 as stated fails: the deletes are awaited, so when the delete of the
    thumbnail rejects after a failed insert, the caller receives the
    delete's error and not the insert error. *)
Lemma rejected_delete_reaches_caller :
  productsInsert insertFailsThumbnailDeleteRejects
    (rowFor insertFailsThumbnailDeleteRejects (sampleForm (Some sampleFile))
            "u1" sampleFile)
  = Resolved (failed "duplicate key")
  /\ storageRemove insertFailsThumbnailDeleteRejects
       [thumbnailPathOf insertFailsThumbnailDeleteRejects "u1" sampleFile]
     = Rejected (JsError "delete failed")
  /\ outcome (createProduct insertFailsThumbnailDeleteRejects
                (sampleForm (Some sampleFile)) "u1")
     = Throw (JsError "delete failed")
  /\ outcome (createProduct insertFailsThumbnailDeleteRejects
                (sampleForm (Some sampleFile)) "u1")
     <> Throw (JsError "Failed to create product: duplicate key").
Proof.
  repeat split. discriminate.
Qed.

Lemma insert_only_after_uploads_witness :
  In (rowFor sampleWorld (sampleForm (Some sampleFile)) "u1" sampleFile)
     (insertedRows
        (trace (createProduct sampleWorld (sampleForm (Some sampleFile))
                  "u1")))
  /\ exists (image : File.t) (optimizedImage : Blob) (r1 : ClientResult),
       storageUpload sampleWorld (imagePathOf sampleWorld "u1" image)
         optimizedImage = Resolved r1
       /\ error r1 = None.
Proof.
  assert (Hin : In (rowFor sampleWorld (sampleForm (Some sampleFile)) "u1"
                      sampleFile)
                   (insertedRows
                      (trace (createProduct sampleWorld
                                (sampleForm (Some sampleFile)) "u1")))).
  { left. reflexivity. }
  split; [exact Hin|].
  destruct (insert_only_after_uploads sampleWorld
              (sampleForm (Some sampleFile)) "u1" _ Hin)
    as [image [optimizedImage [thumbnail [r1 [r2 [before [after H]]]]]]].
  exists image, optimizedImage, r1. split; apply H.
Defined.

(** * Further properties *)

(** ** Every run has one of nine shapes *)

Lemma run_shape (W : World) (data : ProductFormData.t) (userId : string) :
  RunShape W data userId (createProduct W data userId).
Proof.
  destruct (ProductFormData.image data) as [image|] eqn:Himage.
  2:{ rewrite (run_missing_image W data userId Himage).
      apply MissingImage. exact Himage. }
  destruct (optimizeImage W image) as [t1 [optimizedImage|v]] eqn:Hopt.
  2:{ rewrite (run_optimize_failed W data userId image t1 v Himage Hopt).
      apply (OptimizeFailed W data userId image t1 v Himage Hopt). }
  destruct (createThumbnail W optimizedImage) as [t2 [thumbnail|v]] eqn:Hth.
  2:{ rewrite (run_thumbnail_failed W data userId image t1 t2 optimizedImage
                 v Himage Hopt Hth).
      apply (ThumbnailFailed W data userId image t1 t2 optimizedImage v
               Himage Hopt Hth). }
  destruct (promiseAll2 (uploadRace W)
              (storageUpload W (imagePathOf W userId image) optimizedImage)
              (storageUpload W (thumbnailPathOf W userId image) thumbnail))
    as [[r1 r2]|v] eqn:Hall.
  2:{ rewrite (run_uploads_rejected W data userId image t1 t2 optimizedImage
                 thumbnail Himage Hopt Hth v Hall).
      apply (UploadsRejected W data userId image t1 t2 optimizedImage
               thumbnail v Himage Hopt Hth Hall). }
  destruct (storageUpload W (imagePathOf W userId image) optimizedImage)
    as [r1'|v1] eqn:H1;
    destruct (storageUpload W (thumbnailPathOf W userId image) thumbnail)
      as [r2'|v2] eqn:H2; cbn in Hall; try discriminate.
  injection Hall as -> ->.
  destruct (error r1) as [e1|] eqn:He1.
  { rewrite (run_image_upload_error W data userId image t1 t2 optimizedImage
               thumbnail Himage Hopt Hth r1 r2 e1 H1 H2 He1).
    apply (UploadReturnedError W data userId image t1 t2 optimizedImage
             thumbnail r1 r2 _ Himage Hopt Hth H1 H2).
    left. exists e1. split; [exact He1 | reflexivity]. }
  destruct (error r2) as [e2|] eqn:He2.
  { rewrite (run_thumbnail_upload_error W data userId image t1 t2
               optimizedImage thumbnail Himage Hopt Hth r1 r2 e2 H1 H2 He1
               He2).
    apply (UploadReturnedError W data userId image t1 t2 optimizedImage
             thumbnail r1 r2 _ Himage Hopt Hth H1 H2).
    right. split; [exact He1|]. exists e2. split; [exact He2 | reflexivity]. }
  destruct (productsInsert W (rowFor W data userId image))
    as [r3|v] eqn:Hins.
  2:{ rewrite (run_insert_rejected W data userId image t1 t2 optimizedImage
                 thumbnail Himage Hopt Hth r1 r2 H1 H2 He1 He2 v Hins).
      apply (InsertRejected W data userId image t1 t2 optimizedImage
               thumbnail r1 r2 v Himage Hopt Hth H1 H2 He1 He2 Hins). }
  destruct (error r3) as [e3|] eqn:He3.
  - rewrite (run_compensated W data userId image t1 t2 optimizedImage
               thumbnail Himage Hopt Hth r1 r2 H1 H2 He1 He2 r3 e3 Hins He3).
    apply (Compensated W data userId image t1 t2 optimizedImage thumbnail
             r1 r2 r3 e3 _ Himage Hopt Hth H1 H2 He1 He2 Hins He3 eq_refl).
  - rewrite (run_committed W data userId image t1 t2 optimizedImage
               thumbnail Himage Hopt Hth r1 r2 H1 H2 He1 He2 r3 Hins He3).
    apply (Committed W data userId image t1 t2 optimizedImage thumbnail
             r1 r2 r3 Himage Hopt Hth H1 H2 He1 He2 Hins He3).
Qed.

(** *** Observers on the traces of the shapes *)

Lemma consoleErrors_app (s t : Trace) :
  consoleErrors (s ++ t) = (consoleErrors s ++ consoleErrors t)%list.
Proof. apply flat_map_app. Qed.

Lemma uploadCalls_app (s t : Trace) :
  uploadCalls (s ++ t) = (uploadCalls s ++ uploadCalls t)%list.
Proof. apply flat_map_app. Qed.

Lemma backendCalls_app (s t : Trace) :
  backendCalls (s ++ t) = (backendCalls s ++ backendCalls t)%list.
Proof. apply filter_app. Qed.

Lemma browserOnly_consoleErrors (t : Trace) :
  browserOnly t -> consoleErrors t = [].
Proof.
  induction 1 as [|e t He _ IH]; [reflexivity|].
  destruct e; cbn in *; try discriminate; exact IH.
Qed.

Lemma browserOnly_uploadCalls (t : Trace) :
  browserOnly t -> uploadCalls t = [].
Proof.
  induction 1 as [|e t He _ IH]; [reflexivity|].
  destruct e; cbn in *; try discriminate; exact IH.
Qed.

Lemma browserOnly_backendCalls (t : Trace) :
  browserOnly t -> backendCalls t = [].
Proof.
  induction 1 as [|e t He _ IH]; [reflexivity|].
  destruct e; cbn in *; try discriminate; exact IH.
Qed.

Arguments consoleErrors : simpl never.
Arguments uploadCalls : simpl never.
Arguments backendCalls : simpl never.

(** Computes every observer on a trace built from [t1], [t2] and explicit
    events, given that [t1] and [t2] are browser-only. *)
Ltac read_trace B1 B2 :=
  cbn [trace outcome fst snd];
  unfold deletesDispatched, insertDispatched, uploadsDispatched;
  rewrite ?insertedRows_app, ?removedKeys_app, ?uploadedKeys_app,
    ?resolvedUrls_app, ?consoleErrors_app, ?uploadCalls_app,
    ?backendCalls_app;
  rewrite ?(browserOnly_insertedRows _ B1), ?(browserOnly_insertedRows _ B2),
    ?(browserOnly_removedKeys _ B1), ?(browserOnly_removedKeys _ B2),
    ?(browserOnly_uploadedKeys _ B1), ?(browserOnly_uploadedKeys _ B2),
    ?(browserOnly_resolvedUrls _ B1), ?(browserOnly_resolvedUrls _ B2),
    ?(browserOnly_consoleErrors _ B1), ?(browserOnly_consoleErrors _ B2),
    ?(browserOnly_uploadCalls _ B1), ?(browserOnly_uploadCalls _ B2),
    ?(browserOnly_backendCalls _ B1), ?(browserOnly_backendCalls _ B2);
  unfold insertedRows, removedKeys, uploadedKeys, resolvedUrls,
    consoleErrors, uploadCalls, backendCalls, logged;
  cbn [flat_map filter isBackendCall app List.length].

(** Case analysis on the shape of a run, with the browser-only facts of the
    image-processing traces in context. *)
Ltac by_shape W data userId :=
  let S := fresh "S" in
  pose proof (run_shape W data userId) as S;
  destruct S as
    [ Himage
    | image t1 v Himage Hopt
    | image t1 t2 optimizedImage v Himage Hopt Hth
    | image t1 t2 optimizedImage thumbnail v Himage Hopt Hth Hall
    | image t1 t2 optimizedImage thumbnail r1 r2 v Himage Hopt Hth H1 H2 Herr
    | image t1 t2 optimizedImage thumbnail r1 r2 v Himage Hopt Hth H1 H2
        He1 He2 Hins
    | image t1 t2 optimizedImage thumbnail r1 r2 r3 Himage Hopt Hth H1 H2
        He1 He2 Hins He3
    | image t1 t2 optimizedImage thumbnail r1 r2 r3 e v Himage Hopt Hth H1 H2
        He1 He2 Hins He3 Hv ];
  first [ pose proof (optimizeImage_run_browserOnly W image t1 _ Hopt) as B1
        | pose proof (Forall_nil _ : browserOnly []) as B1 ];
  first [ pose proof (createThumbnail_run_browserOnly W optimizedImage t2 _
                        Hth) as B2
        | pose proof (Forall_nil _ : browserOnly []) as B2 ].

(** ** What every run does and never does *)

(** The log call, when there is one, is the last event of a run and the
    only log call in it. *)
Lemma run_logs_last
    (W : World) (data : ProductFormData.t) (userId : string) :
  match outcome (createProduct W data userId) with
  | Return _ => consoleErrors (trace (createProduct W data userId)) = []
  | Throw thrown =>
      exists (caught : JsValue) (before : Trace),
        trace (createProduct W data userId)
        = (before ++ [EvConsoleError "Error creating product:" caught])%list
        /\ consoleErrors before = []
        /\ thrown = (if instanceofError caught then caught
                     else JsError "Failed to create product")
  end.
Proof.
  by_shape W data userId; cbn [outcome trace fst snd].
  - exists (JsError "Product image is required"), [].
    repeat split.
  - exists v, t1. repeat split. apply (browserOnly_consoleErrors _ B1).
  - exists v, (t1 ++ t2)%list. rewrite app_assoc. repeat split.
    rewrite consoleErrors_app, (browserOnly_consoleErrors _ B1),
      (browserOnly_consoleErrors _ B2). reflexivity.
  - eexists v, _. split; [reflexivity|]. split; [|reflexivity].
    read_trace B1 B2. reflexivity.
  - eexists v, _. split; [reflexivity|]. split.
    + read_trace B1 B2. reflexivity.
    + destruct Herr as [[e [_ ->]]|[_ [e [_ ->]]]]; reflexivity.
  - eexists v, _. split; [reflexivity|]. split; [|reflexivity].
    read_trace B1 B2. reflexivity.
  - read_trace B1 B2. reflexivity.
  - eexists v, _. split; [reflexivity|]. split; [|reflexivity].
    read_trace B1 B2. reflexivity.
Qed.

(** X1: the [try] block itself never logs.  A run whose [try] block throws
    a value makes exactly one [console.error] call, with that very value, as
    its last action after everything the block did, and throws the value if
    it is an [Error] and [Error('Failed to create product')] otherwise; a
    run whose [try] block returns is that block's run, with no log call. *)
Theorem failure_logged_exactly_once
    (W : World) (data : ProductFormData.t) (userId : string) :
  consoleErrors (trace (createProductTry W data userId)) = []
  /\ match outcome (createProductTry W data userId) with
     | Return result =>
         createProduct W data userId
         = (trace (createProductTry W data userId), Return result)
         /\ consoleErrors (trace (createProduct W data userId)) = []
     | Throw caught =>
         trace (createProduct W data userId)
         = (trace (createProductTry W data userId)
            ++ [EvConsoleError "Error creating product:" caught])%list
         /\ consoleErrors (trace (createProduct W data userId)) = [caught]
         /\ outcome (createProduct W data userId)
            = Throw (if instanceofError caught then caught
                     else JsError "Failed to create product")
     end.
Proof.
  pose proof (run_logs_last W data userId) as Hlast.
  rewrite createProduct_catches in *.
  destruct (createProductTry W data userId) as [t [result|caught]];
    cbn [outcome trace fst snd] in *.
  - split; [exact Hlast|]. split; [reflexivity | exact Hlast].
  - destruct Hlast as [caught' [before [Htrace [Hbefore _]]]].
    apply app_inj_tail in Htrace. destruct Htrace as [-> Hlog].
    split; [exact Hbefore|]. split; [reflexivity|]. split; [|reflexivity].
    rewrite consoleErrors_app, Hbefore. reflexivity.
Qed.

(** X2: one invocation calls the backend a bounded number of times, in a
    fixed order, and retries nothing.  Its backend calls are, in this order,
    the first 0, 2, 5 or 7 of: upload of the image, upload of the thumbnail,
    public URL of the image key, public URL of the thumbnail key, insert of
    the record, delete of the image key, delete of the thumbnail key.  So it
    makes no upload or two, resolves no public URL or two, inserts at most
    one record, and issues no delete or two. *)
Theorem call_budget
    (W : World) (data : ProductFormData.t) (userId : string) :
  let t := trace (createProduct W data userId) in
  let uploads := List.length (uploadCalls t) in
  let urls := List.length (resolvedUrls t) in
  let inserts := List.length (insertedRows t) in
  let deletes := List.length (removedKeys t) in
  ((uploads = 0 \/ uploads = 2)
   /\ (urls = 0 \/ urls = 2)
   /\ inserts <= 1
   /\ (deletes = 0 \/ deletes = 2)
   /\ urls <= uploads
   /\ 2 * inserts <= urls
   /\ deletes <= 2 * inserts)%nat
  /\ (backendCalls t = []
      \/ exists (image : File.t) (optimizedImage thumbnail : Blob) (n : nat),
           ProductFormData.image data = Some image
           /\ (n = 2 \/ n = 5 \/ n = 7)%nat
           /\ backendCalls t
              = firstn n
                  [EvUpload "products" (imagePathOf W userId image)
                            optimizedImage uploadOptions;
                   EvUpload "products" (thumbnailPathOf W userId image)
                            thumbnail uploadOptions;
                   EvGetPublicUrl "products" (imagePathOf W userId image);
                   EvGetPublicUrl "products" (thumbnailPathOf W userId image);
                   EvInsert "products" (rowFor W data userId image);
                   EvRemove "products" [imagePathOf W userId image];
                   EvRemove "products" [thumbnailPathOf W userId image]]).
Proof.
  cbv zeta. split.
  - by_shape W data userId; read_trace B1 B2; lia.
  - by_shape W data userId; read_trace B1 B2;
      try (left; reflexivity); right;
      exists image, optimizedImage, thumbnail.
    + exists 2%nat. split; [exact Himage|]. split; [tauto | reflexivity].
    + exists 2%nat. split; [exact Himage|]. split; [tauto | reflexivity].
    + exists 5%nat. split; [exact Himage|]. split; [tauto | reflexivity].
    + exists 5%nat. split; [exact Himage|]. split; [tauto | reflexivity].
    + exists 7%nat. split; [exact Himage|]. split; [tauto | reflexivity].
Qed.

(** X3: a run returns only after everything was done: the value returned is
    [{ success: true }], the image was present, both keys were uploaded and
    resolved, exactly one record was inserted and the record store resolved
    without an error, nothing was deleted and nothing was logged. *)
Theorem success_means_committed
    (W : World) (data : ProductFormData.t) (userId : string)
    (result : CreateResult) :
  outcome (createProduct W data userId) = Return result ->
  result = {| success := true |}
  /\ exists (image : File.t) (r3 : ClientResult),
       ProductFormData.image data = Some image
       /\ productsInsert W (rowFor W data userId image) = Resolved r3
       /\ error r3 = None
       /\ insertedRows (trace (createProduct W data userId))
          = [rowFor W data userId image]
       /\ uploadedKeys (trace (createProduct W data userId))
          = [imagePathOf W userId image; thumbnailPathOf W userId image]
       /\ resolvedUrls (trace (createProduct W data userId))
          = [imagePathOf W userId image; thumbnailPathOf W userId image]
       /\ removedKeys (trace (createProduct W data userId)) = []
       /\ consoleErrors (trace (createProduct W data userId)) = [].
Proof.
  by_shape W data userId; cbn [outcome snd]; try discriminate.
  intros [= <-]. split; [reflexivity|].
  exists image, r3. repeat split; try assumption;
    read_trace B1 B2; reflexivity.
Qed.

Lemma success_means_committed_witness :
  outcome (createProduct sampleWorld (sampleForm (Some sampleFile)) "u1")
  = Return {| success := true |}
  /\ exists image : File.t,
       uploadedKeys
         (trace (createProduct sampleWorld (sampleForm (Some sampleFile))
                   "u1"))
       = [imagePathOf sampleWorld "u1" image;
          thumbnailPathOf sampleWorld "u1" image].
Proof.
  split; [reflexivity|].
  destruct (success_means_committed sampleWorld
              (sampleForm (Some sampleFile)) "u1" _ eq_refl)
    as [_ [image [r3 H]]].
  exists image. apply H.
Defined.

(** X4: deletes are compensation only.  Whenever a run issues a delete, the
    record store had returned an error for the insert of this invocation,
    and the deletes are exactly two, for the image key and the thumbnail key
    that this invocation uploaded: no other key is ever removed. *)
Theorem deletes_only_compensate
    (W : World) (data : ProductFormData.t) (userId : string) :
  removedKeys (trace (createProduct W data userId)) <> [] ->
  exists (image : File.t) (r3 : ClientResult) (e : ClientError),
    ProductFormData.image data = Some image
    /\ productsInsert W (rowFor W data userId image) = Resolved r3
    /\ error r3 = Some e
    /\ removedKeys (trace (createProduct W data userId))
       = [[imagePathOf W userId image]; [thumbnailPathOf W userId image]]
    /\ uploadedKeys (trace (createProduct W data userId))
       = [imagePathOf W userId image; thumbnailPathOf W userId image]
    /\ insertedRows (trace (createProduct W data userId))
       = [rowFor W data userId image].
Proof.
  by_shape W data userId; read_trace B1 B2; cbn;
    try (intros Hne; exfalso; apply Hne; reflexivity).
  intros _. exists image, r3, e. repeat split; assumption.
Qed.

Lemma deletes_only_compensate_witness :
  removedKeys
    (trace (createProduct insertFails (sampleForm (Some sampleFile)) "u1"))
  <> []
  /\ exists (image : File.t) (r3 : ClientResult) (e : ClientError),
       productsInsert insertFails
         (rowFor insertFails (sampleForm (Some sampleFile)) "u1" image)
       = Resolved r3
       /\ error r3 = Some e.
Proof.
  assert (Hne : removedKeys
                  (trace (createProduct insertFails
                            (sampleForm (Some sampleFile)) "u1")) <> [])
    by (vm_compute; discriminate).
  split; [exact Hne|].
  destruct (deletes_only_compensate insertFails
              (sampleForm (Some sampleFile)) "u1" Hne)
    as [image [r3 [e H]]].
  exists image, r3, e. split; apply H.
Defined.

(** X5: whatever is uploaded is a processed image.  Every upload call of a
    run goes to the bucket [products] with content type [image/jpeg], cache
    control [3600] and [upsert: false]; its body is the blob returned by
    [optimizeImage] under the image key, or the blob returned by
    [createThumbnail] on that optimized blob under the thumbnail key. *)
Theorem uploads_carry_processed_images
    (W : World) (data : ProductFormData.t) (userId : string)
    (bucket key : string) (body : Blob) (opts : UploadOptions) :
  In (bucket, key, body, opts)
     (uploadCalls (trace (createProduct W data userId))) ->
  bucket = "products"
  /\ opts = {| contentType := "image/jpeg"; cacheControl := "3600";
               upsert := false |}
  /\ exists (image : File.t) (optimizedImage : Blob),
       ProductFormData.image data = Some image
       /\ outcome (optimizeImage W image) = Return optimizedImage
       /\ ((key = imagePathOf W userId image /\ body = optimizedImage)
           \/ (key = thumbnailPathOf W userId image
               /\ outcome (createThumbnail W optimizedImage) = Return body)).
Proof.
  by_shape W data userId; read_trace B1 B2; cbn;
    try (intros []; fail);
    (intros [E|[E|[]]]; injection E as <- <- <- <-;
     (split; [reflexivity|]); (split; [reflexivity|]);
     exists image, optimizedImage; rewrite Hopt, Hth;
     (split; [exact Himage|]); (split; [reflexivity|]);
     [left | right]; split; reflexivity).
Qed.

Lemma uploads_carry_processed_images_witness :
  In ("products", "u1/1700000000000_k3j9x0q1z_thumb.png",
      "PNGDATA@400x200@200x100", uploadOptions)
     (uploadCalls
        (trace (createProduct sampleWorld (sampleForm (Some sampleFile))
                  "u1")))
  /\ uploadOptions
     = {| contentType := "image/jpeg"; cacheControl := "3600";
          upsert := false |}.
Proof.
  assert (Hin : In ("products", "u1/1700000000000_k3j9x0q1z_thumb.png",
                    "PNGDATA@400x200@200x100", uploadOptions)
                   (uploadCalls
                      (trace (createProduct sampleWorld
                                (sampleForm (Some sampleFile)) "u1"))))
    by (right; left; reflexivity).
  split; [exact Hin|].
  apply (uploads_carry_processed_images sampleWorld
           (sampleForm (Some sampleFile)) "u1" _ _ _ _ Hin).
Defined.

(** ** Failures before and around the backend calls *)

Lemma optimizeImage_failures (W : World) (file : File.t) (v : JsValue) :
  outcome (optimizeImage W file) = Throw v ->
  In v [JsError "Failed to load image";
        JsError "Failed to get canvas context";
        JsError "Failed to create blob"].
Proof.
  unfold optimizeImage. cbn.
  destruct (imageLoad W (File.bytes file)) as [[w h]|]; cbn.
  - destruct (getContext2d W defaultCanvasWidth defaultCanvasHeight); cbn.
    + destruct (canvasToBlob W (File.bytes file) w h "image/jpeg" 0.8%Q);
        cbn; intros [=]; subst; tauto.
    + intros [=]; subst; tauto.
  - intros [=]; subst; tauto.
Qed.

Lemma createThumbnail_failures (W : World) (file : Blob) (v : JsValue) :
  outcome (createThumbnail W file) = Throw v ->
  In v [JsError "Failed to load image for thumbnail";
        JsError "Failed to get canvas context";
        JsError "Failed to create thumbnail"].
Proof.
  unfold createThumbnail. cbn.
  destruct (imageLoad W file) as [[w h]|]; cbn.
  - destruct (thumbnailSize w h) as [w' h'].
    destruct (getContext2d W w' h'); cbn.
    + destruct (canvasToBlob W file w' h' "image/jpeg" 0.7%Q);
        cbn; intros [=]; subst; tauto.
    + intros [=]; subst; tauto.
  - intros [=]; subst; tauto.
Qed.

Lemma run_of_outcome {A} (m : Async A) (c : Completion A) :
  outcome m = c -> m = (trace m, c).
Proof. intros <-. apply run_eta. Qed.

Lemma rethrown_Error (v : JsValue) :
  instanceofError v = true -> rethrown v = v.
Proof. destruct v; [reflexivity | discriminate]. Qed.

(** X6: when [optimizeImage] fails, or [createThumbnail] fails on the
    optimized image, the workflow stops there: the caller receives that very
    error, which is one of five fixed messages, it is logged once, and the
    storage client and the record store are never called. *)
Theorem processing_failure_stops_workflow
    (W : World) (data : ProductFormData.t) (userId : string)
    (image : File.t) (v : JsValue) :
  ProductFormData.image data = Some image ->
  outcome (optimizeImage W image) = Throw v
  \/ (exists optimizedImage : Blob,
        outcome (optimizeImage W image) = Return optimizedImage
        /\ outcome (createThumbnail W optimizedImage) = Throw v) ->
  outcome (createProduct W data userId) = Throw v
  /\ backendCalls (trace (createProduct W data userId)) = []
  /\ consoleErrors (trace (createProduct W data userId)) = [v]
  /\ In v [JsError "Failed to load image";
           JsError "Failed to get canvas context";
           JsError "Failed to create blob";
           JsError "Failed to load image for thumbnail";
           JsError "Failed to create thumbnail"].
Proof.
  intros Himage [Hopt|[optimizedImage [Hopt Hth]]].
  - pose proof (optimizeImage_failures W image v Hopt) as Hmsg.
    pose proof (optimizeImage_throws_Error W image v Hopt) as Herr.
    pose proof (optimizeImage_browserOnly W image) as B1.
    rewrite (run_optimize_failed W data userId image _ v Himage
               (run_of_outcome _ _ Hopt)).
    rewrite (rethrown_Error v Herr). cbn [outcome trace fst snd].
    rewrite backendCalls_app, consoleErrors_app,
      (browserOnly_backendCalls _ B1), (browserOnly_consoleErrors _ B1).
    repeat split. cbn in *. tauto.
  - pose proof (createThumbnail_failures W optimizedImage v Hth) as Hmsg.
    pose proof (createThumbnail_throws_Error W optimizedImage v Hth) as Herr.
    pose proof (optimizeImage_browserOnly W image) as B1.
    pose proof (createThumbnail_browserOnly W optimizedImage) as B2.
    rewrite (run_thumbnail_failed W data userId image _ _ optimizedImage v
               Himage (run_of_outcome _ _ Hopt) (run_of_outcome _ _ Hth)).
    rewrite (rethrown_Error v Herr). cbn [outcome trace fst snd].
    rewrite !backendCalls_app, !consoleErrors_app,
      (browserOnly_backendCalls _ B1), (browserOnly_consoleErrors _ B1),
      (browserOnly_backendCalls _ B2), (browserOnly_consoleErrors _ B2).
    repeat split. cbn in *. tauto.
Qed.

Lemma processing_failure_stops_workflow_witness :
  outcome (optimizeImage undecodableWorld sampleFile)
  = Throw (JsError "Failed to load image")
  /\ outcome (createProduct undecodableWorld (sampleForm (Some sampleFile))
                "u1")
     = Throw (JsError "Failed to load image")
  /\ backendCalls
       (trace (createProduct undecodableWorld (sampleForm (Some sampleFile))
                 "u1")) = [].
Proof.
  split; [reflexivity|].
  pose proof (processing_failure_stops_workflow undecodableWorld
                (sampleForm (Some sampleFile)) "u1" sampleFile
                (JsError "Failed to load image") eq_refl
                (or_introl eq_refl)) as H.
  split; apply H.
Defined.

Section AfterProcessing.

(** An invocation whose image is present and processed, told by the
    outcomes of the two processing steps. *)
Variable W : World.
Variables (data : ProductFormData.t) (userId : string) (image : File.t).
Variables (optimizedImage thumbnail : Blob).

Hypothesis Himage : ProductFormData.image data = Some image.
Hypothesis Hoptimize :
  outcome (optimizeImage W image) = Return optimizedImage.
Hypothesis Hthumbnail :
  outcome (createThumbnail W optimizedImage) = Return thumbnail.

Local Abbreviation imagePath := (imagePathOf W userId image).
Local Abbreviation thumbnailPath := (thumbnailPathOf W userId image).
Local Abbreviation run := (createProduct W data userId).

Lemma processed_traces :
  optimizeImage W image
  = (trace (optimizeImage W image), Return optimizedImage)
  /\ createThumbnail W optimizedImage
     = (trace (createThumbnail W optimizedImage), Return thumbnail)
  /\ browserOnly (trace (optimizeImage W image))
  /\ browserOnly (trace (createThumbnail W optimizedImage)).
Proof.
  split; [apply run_of_outcome; exact Hoptimize|].
  split; [apply run_of_outcome; exact Hthumbnail|].
  split; [apply optimizeImage_browserOnly | apply createThumbnail_browserOnly].
Qed.

(** X7: when an upload call rejects, both uploads have been dispatched and
    the run stops at their joint await: the caller receives what the [catch]
    clause makes of one of the rejections, no public URL is resolved, no
    record is inserted, and nothing is deleted, so an upload that did succeed
    stays in the bucket. *)
Theorem rejected_upload_stops_workflow (reason : JsValue) :
  storageUpload W imagePath optimizedImage = Rejected reason
  \/ storageUpload W thumbnailPath thumbnail = Rejected reason ->
  (exists v : JsValue,
      (storageUpload W imagePath optimizedImage = Rejected v
       \/ storageUpload W thumbnailPath thumbnail = Rejected v)
      /\ outcome run = Throw (if instanceofError v then v
                              else JsError "Failed to create product"))
  /\ uploadedKeys (trace run) = [imagePath; thumbnailPath]
  /\ resolvedUrls (trace run) = []
  /\ insertedRows (trace run) = []
  /\ removedKeys (trace run) = [].
Proof.
  intros Hrej.
  destruct processed_traces as [Eopt [Eth [B1 B2]]].
  assert (Hall : exists v,
             promiseAll2 (uploadRace W)
               (storageUpload W imagePath optimizedImage)
               (storageUpload W thumbnailPath thumbnail) = Rejected v
             /\ (storageUpload W imagePath optimizedImage = Rejected v
                 \/ storageUpload W thumbnailPath thumbnail = Rejected v)).
  { destruct (storageUpload W imagePath optimizedImage) as [r1|v1];
      destruct (storageUpload W thumbnailPath thumbnail) as [r2|v2]; cbn.
    - destruct Hrej; discriminate.
    - exists v2. split; [reflexivity | right; reflexivity].
    - exists v1. split; [reflexivity | left; reflexivity].
    - destruct (uploadRace W).
      + exists v1. split; [reflexivity | left; reflexivity].
      + exists v2. split; [reflexivity | right; reflexivity]. }
  destruct Hall as [v [Hall Hv]].
  rewrite (run_uploads_rejected W data userId image _ _ optimizedImage
             thumbnail Himage Eopt Eth v Hall).
  split; [exists v; split; [exact Hv | reflexivity]|].
  repeat split; read_trace B1 B2; reflexivity.
Qed.

(** X8: when both uploads succeed and the insert call rejects, instead of
    returning an error, no delete is issued: the caller receives what the
    [catch] clause makes of the rejection and the two uploaded blobs stay in
    the bucket. *)
Theorem rejected_insert_skips_cleanup
    (r1 r2 : ClientResult) (reason : JsValue) :
  storageUpload W imagePath optimizedImage = Resolved r1 ->
  storageUpload W thumbnailPath thumbnail = Resolved r2 ->
  error r1 = None ->
  error r2 = None ->
  productsInsert W (rowFor W data userId image) = Rejected reason ->
  outcome run = Throw (if instanceofError reason then reason
                       else JsError "Failed to create product")
  /\ removedKeys (trace run) = []
  /\ uploadedKeys (trace run) = [imagePath; thumbnailPath]
  /\ insertedRows (trace run) = [rowFor W data userId image].
Proof.
  intros H1 H2 He1 He2 Hins.
  destruct processed_traces as [Eopt [Eth [B1 B2]]].
  rewrite (run_insert_rejected W data userId image _ _ optimizedImage
             thumbnail Himage Eopt Eth r1 r2 H1 H2 He1 He2 reason Hins).
  repeat split; read_trace B1 B2; reflexivity.
Qed.

End AfterProcessing.

Lemma rejected_upload_stops_workflow_witness :
  storageUpload uploadsReject (imagePathOf uploadsReject "u1" sampleFile)
    "PNGDATA@400x200"
  = Rejected (JsError "network down")
  /\ insertedRows
       (trace (createProduct uploadsReject (sampleForm (Some sampleFile))
                 "u1")) = []
  /\ uploadedKeys
       (trace (createProduct uploadsReject (sampleForm (Some sampleFile))
                 "u1"))
     = [imagePathOf uploadsReject "u1" sampleFile;
        thumbnailPathOf uploadsReject "u1" sampleFile].
Proof.
  split; [reflexivity|].
  pose proof (rejected_upload_stops_workflow uploadsReject
                (sampleForm (Some sampleFile)) "u1" sampleFile
                "PNGDATA@400x200" "PNGDATA@400x200@200x100"
                eq_refl eq_refl eq_refl (JsError "network down")
                (or_introl eq_refl)) as H.
  split; apply H.
Defined.

Lemma rejected_insert_skips_cleanup_witness :
  productsInsert insertRejects
    (rowFor insertRejects (sampleForm (Some sampleFile)) "u1" sampleFile)
  = Rejected (JsError "network down")
  /\ outcome (createProduct insertRejects (sampleForm (Some sampleFile))
                "u1")
     = Throw (JsError "network down")
  /\ removedKeys
       (trace (createProduct insertRejects (sampleForm (Some sampleFile))
                 "u1")) = [].
Proof.
  split; [reflexivity|].
  pose proof (rejected_insert_skips_cleanup insertRejects
                (sampleForm (Some sampleFile)) "u1" sampleFile
                "PNGDATA@400x200" "PNGDATA@400x200@200x100"
                eq_refl eq_refl eq_refl ok ok (JsError "network down")
                eq_refl eq_refl eq_refl eq_refl eq_refl) as H.
  split; apply H.
Defined.

(** ** Image sizes *)

(** X9: [optimizeImage] never resizes.  Whenever it encodes, the canvas has
    exactly the width and height of the decoded file, the source is the file
    itself, and the encoding is JPEG at quality 0.8. *)
Theorem optimizeImage_keeps_dimensions
    (W : World) (file : File.t) (src : Blob) (cw ch : Z) (mime : string)
    (q : Q) :
  In (EvToBlob src cw ch mime q) (trace (optimizeImage W file)) ->
  imageLoad W (File.bytes file) = Some (cw, ch)
  /\ src = File.bytes file
  /\ mime = "image/jpeg"
  /\ q = 0.8%Q.
Proof.
  unfold optimizeImage. cbn.
  destruct (imageLoad W (File.bytes file)) as [[w h]|]; cbn.
  - destruct (getContext2d W defaultCanvasWidth defaultCanvasHeight); cbn.
    + destruct (canvasToBlob W (File.bytes file) w h "image/jpeg" 0.8%Q);
        cbn; intros [E|[E|[]]]; try discriminate;
        injection E as <- <- <- <- <-; repeat split.
    + intros [E|[]]; discriminate.
  - intros [E|[]]; discriminate.
Qed.

Lemma optimizeImage_keeps_dimensions_witness :
  In (EvToBlob "PNGDATA" 400 200 "image/jpeg" 0.8%Q)
     (trace (optimizeImage sampleWorld sampleFile))
  /\ imageLoad sampleWorld (File.bytes sampleFile) = Some (400, 200).
Proof.
  assert (Hin : In (EvToBlob "PNGDATA" 400 200 "image/jpeg" 0.8%Q)
                   (trace (optimizeImage sampleWorld sampleFile)))
    by (right; left; reflexivity).
  split; [exact Hin|].
  apply (optimizeImage_keeps_dimensions sampleWorld sampleFile _ _ _ _ _ Hin).
Defined.

Lemma roundDiv_exact (d m : Z) : 0 < d -> roundDiv (d * m) d = m.
Proof.
  intros Hd. unfold roundDiv. symmetry.
  apply (Z.div_unique (2 * (d * m) + d) (2 * d) m d); lia.
Qed.

Lemma roundDiv_zero (n d : Z) :
  0 <= n -> 0 < d -> (roundDiv n d = 0 <-> 2 * n < d).
Proof.
  intros Hn Hd. unfold roundDiv. split.
  - intros E.
    pose proof (Z.div_mod (2 * n + d) (2 * d) ltac:(lia)) as M.
    pose proof (Z.mod_pos_bound (2 * n + d) (2 * d) ltac:(lia)) as B.
    rewrite E in M. lia.
  - intros H. apply Z.div_small. lia.
Qed.

Lemma roundDiv_nonneg (n d : Z) : 0 <= n -> 0 < d -> 0 <= roundDiv n d.
Proof.
  intros Hn Hd. unfold roundDiv. apply Z.div_pos; lia.
Qed.

(** X10: turning an image by a quarter turns its thumbnail size with it:
    for positive sizes, the thumbnail size of [h] by [w] is the thumbnail
    size of [w] by [h] with width and height exchanged; a square image gets
    a 200 by 200 thumbnail. *)
Theorem thumbnailSize_orientation (w h : Z) :
  0 < w -> 0 < h ->
  thumbnailSize h w = (snd (thumbnailSize w h), fst (thumbnailSize w h))
  /\ (w = h -> thumbnailSize w h = (200, 200)).
Proof.
  intros Hw Hh. unfold thumbnailSize, maxWidth, maxHeight. split.
  - destruct (Z.gtb_spec w h); destruct (Z.gtb_spec h w); cbn [fst snd];
      try reflexivity; try lia.
    assert (w = h) as -> by lia.
    rewrite (Z.mul_comm h 200), (Z.mul_comm 200 h), roundDiv_exact by lia.
    reflexivity.
  - intros ->. destruct (Z.gtb_spec h h); [lia|].
    rewrite roundDiv_exact by lia. reflexivity.
Qed.

Lemma thumbnailSize_orientation_witness :
  0 < 640 /\ 0 < 480
  /\ thumbnailSize 480 640 = (150, 200)
  /\ thumbnailSize 640 480 = (200, 150).
Proof.
  split; [reflexivity|]. split; [reflexivity|].
  destruct (thumbnailSize_orientation 640 480 eq_refl eq_refl) as [H _].
  split; [exact H | reflexivity].
Defined.

(** X11: the shorter side of a thumbnail can vanish.  For positive sizes
    neither side of the thumbnail is negative; its height is 0 exactly when
    the image is more than 400 times as wide as it is high, and its width is
    0 exactly when the image is more than 400 times as high as it is
    wide. *)
Theorem thumbnailSize_degenerate (w h : Z) :
  0 < w -> 0 < h ->
  0 <= fst (thumbnailSize w h)
  /\ 0 <= snd (thumbnailSize w h)
  /\ (snd (thumbnailSize w h) = 0 <-> 400 * h < w)
  /\ (fst (thumbnailSize w h) = 0 <-> 400 * w < h).
Proof.
  intros Hw Hh. unfold thumbnailSize, maxWidth, maxHeight.
  destruct (Z.gtb_spec w h); cbn [fst snd].
  - pose proof (roundDiv_nonneg (h * 200) w ltac:(lia) Hw).
    pose proof (roundDiv_zero (h * 200) w ltac:(lia) Hw).
    repeat split; try lia.
  - pose proof (roundDiv_nonneg (w * 200) h ltac:(lia) Hh).
    pose proof (roundDiv_zero (w * 200) h ltac:(lia) Hh).
    repeat split; try lia.
Qed.

Lemma thumbnailSize_degenerate_witness :
  0 < 1000 /\ 0 < 2 /\ 400 * 2 < 1000
  /\ snd (thumbnailSize 1000 2) = 0
  /\ In (EvToBlob "PNGDATA" 200 0 "image/jpeg" 0.7%Q)
        (trace (createThumbnail panoramaWorld "PNGDATA")).
Proof.
  split; [reflexivity|]. split; [reflexivity|]. split; [reflexivity|].
  split.
  - apply (thumbnailSize_degenerate 1000 2); reflexivity.
  - right. left. reflexivity.
Defined.

(** ** Storage keys, continued *)

Lemma split_segments_clean (sep : ascii) (s : string) :
  Forall (fun seg => occurs sep seg = false) (split sep s).
Proof.
  induction s as [|c rest IH]; cbn.
  - repeat constructor.
  - destruct (Ascii.eqb c sep) eqn:E.
    + constructor; [reflexivity | exact IH].
    + destruct (split sep rest) as [|seg segs].
      * constructor; [cbn; rewrite E; reflexivity | constructor].
      * inversion IH as [|? ? Hseg Hsegs]; subst.
        constructor; [cbn; rewrite E, Hseg; reflexivity | exact Hsegs].
Qed.

Lemma pop_In (l : list string) (x : string) : pop l = Some x -> In x l.
Proof.
  induction l as [|y l IH]; cbn; [discriminate|].
  destruct l as [|z l]; [intros [= ->]; left; reflexivity|].
  intros H. right. apply IH. exact H.
Qed.

Lemma prefix_append (a b : string) : String.prefix a (a ++ b) = true.
Proof.
  induction a as [|c a IH]; cbn; [destruct b; reflexivity|].
  destruct (ascii_dec c c); [exact IH | contradiction].
Qed.

(** X12: the extension put into the storage keys is never empty and never
    contains a dot, whatever the file is called. *)
Theorem fileExt_wellformed (image : File.t) :
  fileExt image <> "" /\ occurs "." (fileExt image) = false.
Proof.
  unfold fileExt.
  destruct (pop (split "." (File.name image))) as [ext|] eqn:Hpop; cbn.
  - pose proof (split_segments_clean "." (File.name image)) as Hclean.
    rewrite Forall_forall in Hclean.
    specialize (Hclean ext (pop_In _ _ Hpop)).
    destruct ext as [|c ext]; cbn.
    + split; [discriminate | reflexivity].
    + split; [discriminate | exact Hclean].
  - split; [discriminate | reflexivity].
Qed.

(** X13: for a file named [stem.ext], with [ext] non-empty and free of
    dots, both storage keys end in [.ext]: the image key is
    [userId/now_token.ext] and the thumbnail key is
    [userId/now_token_thumb.ext], whatever dots the stem contains. *)
Theorem keys_keep_extension
    (W : World) (userId stem ext : string) (content : Blob) :
  occurs "." ext = false ->
  ext <> "" ->
  let image := {| File.name := stem ++ String "." ext;
                  File.bytes := content |} in
  imagePathOf W userId image
  = userId ++ "/" ++ numberToString (now W) ++ "_" ++ randomToken W
    ++ "." ++ ext
  /\ thumbnailPathOf W userId image
     = userId ++ "/" ++ numberToString (now W) ++ "_" ++ randomToken W
       ++ "_thumb." ++ ext.
Proof.
  intros Hdot Hne image.
  destruct (storage_keys_form W userId image) as [-> ->].
  subst image. rewrite (fileExt_after_last_dot stem ext content Hdot Hne).
  split; reflexivity.
Qed.

Lemma keys_keep_extension_witness :
  occurs "." "gz" = false
  /\ imagePathOf sampleWorld "u1"
       {| File.name := "archive.tar.gz"; File.bytes := "DATA" |}
     = "u1/1700000000000_k3j9x0q1z.gz".
Proof.
  split; [reflexivity|].
  pose proof (keys_keep_extension sampleWorld "u1" "archive.tar" "gz" "DATA"
                eq_refl ltac:(discriminate)) as H.
  cbv zeta in H. destruct H as [H _]. exact H.
Defined.

(** X14: the two keys of an invocation lie under the user's prefix
    [userId/] and are different from each other, so the thumbnail never
    takes the place of the image. *)
Theorem keys_under_user_prefix
    (W : World) (userId : string) (image : File.t) :
  String.prefix (userId ++ "/") (imagePathOf W userId image) = true
  /\ String.prefix (userId ++ "/") (thumbnailPathOf W userId image) = true
  /\ imagePathOf W userId image <> thumbnailPathOf W userId image.
Proof.
  split; [|split].
  - unfold imagePathOf.
    change (userId ++ "/" ++ baseFilename W ++ "." ++ fileExt image)
      with (userId ++ ("/" ++ (baseFilename W ++ "." ++ fileExt image))).
    rewrite <- (append_assoc userId "/"). apply prefix_append.
  - unfold thumbnailPathOf.
    rewrite <- (append_assoc userId "/"). apply prefix_append.
  - apply storage_keys_distinct.
Qed.

(** ** The form schema *)

Lemma stringMin_one (msg field value : string) :
  stringMin 1 msg field value
  = match value with
    | EmptyString => [ {| path := field; issueMessage := msg |} ]
    | String _ _ => []
    end.
Proof. destruct value; reflexivity. Qed.

(** On forms whose image is a [File] or absent, [productSchema] reports no
    issue exactly when the four text fields are non-empty, and each empty
    field is reported under its own path with its own message. *)
Lemma productSchema_accepts (d : ProductFormData.t) :
  (productSchema d = []
   <-> ProductFormData.name d <> ""
       /\ ProductFormData.marketplace d <> ""
       /\ ProductFormData.marketplace_product_id d <> ""
       /\ ProductFormData.giveaway d <> "")
  /\ (In {| path := "name"; issueMessage := "Product name is required" |}
         (productSchema d)
      <-> ProductFormData.name d = "")
  /\ (In {| path := "marketplace";
            issueMessage := "Marketplace is required" |}
         (productSchema d)
      <-> ProductFormData.marketplace d = "")
  /\ (In {| path := "marketplace_product_id";
            issueMessage := "Marketplace Product ID is required" |}
         (productSchema d)
      <-> ProductFormData.marketplace_product_id d = "")
  /\ (In {| path := "giveaway";
            issueMessage := "Giveaway amount is required" |}
         (productSchema d)
      <-> ProductFormData.giveaway d = "").
Proof.
  unfold productSchema. rewrite !stringMin_one.
  destruct (ProductFormData.name d), (ProductFormData.marketplace d),
    (ProductFormData.marketplace_product_id d), (ProductFormData.giveaway d);
    cbn; repeat split; intros; try discriminate; try reflexivity;
    try tauto;
    repeat match goal with
      | H : _ /\ _ |- _ => destruct H
      | H : _ \/ _ |- _ => destruct H
      | H : False |- _ => destruct H
      | H : ?x <> ?x |- _ => exfalso; apply H; reflexivity
      | H : _ = _ |- _ => discriminate H
      end.
Qed.

(** X16: the schema does not secure what [createProduct] needs.  Taking the
    image out of a form the schema accepts gives a form the schema still
    accepts, and [createProduct] rejects it with [Product image is required]
    without calling the backend. *)
Theorem accepted_form_may_lack_image
    (W : World) (d : ProductFormData.t) (userId : string) :
  productSchema d = [] ->
  productSchema (withoutImage d) = []
  /\ outcome (createProduct W (withoutImage d) userId)
     = Throw (JsError "Product image is required")
  /\ backendCalls (trace (createProduct W (withoutImage d) userId)) = [].
Proof.
  intros Hok. split; [exact Hok|].
  rewrite (run_missing_image W (withoutImage d) userId eq_refl).
  split; reflexivity.
Qed.

Lemma accepted_form_may_lack_image_witness :
  productSchema (sampleForm (Some sampleFile)) = []
  /\ outcome (createProduct sampleWorld
                (withoutImage (sampleForm (Some sampleFile))) "u1")
     = Throw (JsError "Product image is required").
Proof.
  split; [reflexivity|].
  apply (accepted_form_may_lack_image sampleWorld
           (sampleForm (Some sampleFile)) "u1").
  reflexivity.
Defined.
